(** * wnutils.plot.xml : the plotting layer over the XML reader

    A shallow embedding of [wnutils/plot/xml.py].  The six plotting
    functions are straight-line Python that talks to three collaborators:
    the reader [wx], the name resolver [wu] and matplotlib ([plt], [mpl],
    configured through [plp]).  Every call that leaves the module is
    recorded as an event, so that a run of a plotting function is the list
    of calls it issued together with the way it ended: a normal return or a
    Python exception that propagated to the caller.  The exceptions are
    those of the reader and of the resolver, [KeyError] and [IndexError]
    of the subscripts, [TypeError] and [ValueError] of [float(...)], and
    the [ValueError] of [plt.plot(x, y)] for two series of different
    lengths. *)

From Stdlib Require Import ZArith.
From Stdlib Require Import Floats.PrimFloat Floats.SpecFloat Floats.FloatOps.
From stdpp Require Import gmap strings list.

Local Open Scope string_scope.
Local Open Scope list_scope.

(** ** Python values *)

(** The values a caller can put in [**kwargs]. *)
#[warnings="-register-all"]
Inductive pyval :=
| PyNone
| PyBool (b : bool)
| PyInt (z : Z)
| PyFloat (f : float)
| PyStr (s : string)
| PyList (l : list pyval).

(** The exceptions that can reach the caller.  [ReaderError] and
    [NameError] stand for whatever the reader and the name resolver raise
    on their own. *)
Inductive exn :=
| KeyError (key : string)
| IndexError
| TypeError
| ValueError
| OverflowError
| ZeroDivisionError
| ReaderError (msg : string)
| NameError (msg : string).

(** [inl e]: the exception [e] was raised; [inr a]: the value [a]. *)
Abbreviation result A := (exn + A)%type.

(** A float array as numpy holds it.  The reader hands out arrays on which
    [x /= f] is defined, and that operator updates the array in place. *)
Abbreviation ndarray := (list float).

(** The keyword arguments of one call. *)
Abbreviation kwargs_t := (gmap string pyval).

(** ** Events: the calls that leave the module *)

Inductive pymodule := Mpl | Plt.

Inductive event :=
| SetPlotParams (target : pymodule) (kw : kwargs_t)
| ApplyClassMethods (kw : kwargs_t)
| Print (msg : string)
| GetProperties (file : string) (names : list string)
| GetMassFractions (file : string) (names : list string)
| GetAbundances (file nucleon : string) (zone_xpath : option string)
| GetLatexNames (names : list string)
| Figure
| Plot (x : option ndarray) (y : ndarray) (label : option string)
| Ylabel (s : string)
| Xlabel (s : string)
| Legend
| Show.

(** Calls to the dataset reader that ask for data. *)
Definition is_data_call (e : event) : bool :=
  match e with
  | GetProperties _ _ | GetMassFractions _ _ | GetAbundances _ _ _ => true
  | _ => false
  end.

(** Calls to matplotlib's pyplot interface. *)
Definition is_render_call (e : event) : bool :=
  match e with
  | Figure | Plot _ _ _ | Ylabel _ | Xlabel _ | Legend | Show => true
  | _ => false
  end.

Definition is_plot (e : event) : bool :=
  match e with Plot _ _ _ => true | _ => false end.

(** The series handed to [plt.plot], in call order. *)
Definition plotted (t : list event) : list (option ndarray * ndarray * option string) :=
  omap (fun e => match e with Plot x y l => Some (x, y, l) | _ => None end) t.

(** The [label=] argument of every [plt.plot] call, in call order. *)
Definition plot_labels (t : list event) : list (option string) :=
  (fun s => s.2) <$> plotted t.

(** ** The monad of a run: a trace of events and an outcome *)

Definition M (A : Type) : Type := list event * result A.

Definition trace {A} (m : M A) : list event := m.1.
Definition outcome {A} (m : M A) : result A := m.2.

#[export] Instance M_ret : MRet M := fun A a => ([], inr a).

#[export] Instance M_bind : MBind M := fun A B f m =>
  match m.2 with
  | inl e => (m.1, inl e)
  | inr a => (m.1 ++ (f a).1, (f a).2)
  end.

(** A call that is recorded and returns: [plt.figure], [plt.ylabel],
    [plt.xlabel], [plt.legend], [plt.show], [print] and the two helpers of
    [plp], none of which depends on the data that was read. *)
Definition emit (e : event) : M unit := ([e], inr tt).

(** A step inside the module: nothing is recorded, and the step returns a
    value or raises. *)
Definition lift {A} (r : result A) : M A := ([], r).

(** A call to a collaborator: the call is recorded, its result or its
    exception is what the collaborator gave. *)
Definition call {A} (e : event) (r : result A) : M A := ([e], r).

(** Whether [plt.plot] accepts the two series: an abscissa must have as
    many elements as the ordinate. *)
Definition same_length (x : option ndarray) (y : ndarray) : bool :=
  match x with
  | Some xs => bool_decide (length xs = length y)
  | None => true
  end.

(** [plt.plot(x, y, label=...)] or [plt.plot(y, ...)].  The call is
    recorded; with an abscissa of another length than the ordinate
    matplotlib raises [ValueError] and draws nothing. *)
Definition plt_plot (x : option ndarray) (y : ndarray)
    (label : option string) : M unit :=
  call (Plot x y label)
       (if same_length x y then inr tt else inl ValueError).

(** [for i in l: body(i)] *)
Fixpoint for_in (l : list nat) (body : nat -> M unit) : M unit :=
  match l with
  | [] => mret tt
  | i :: l' => body i ;; for_in l' body
  end.

(** [range(n)] *)
Definition range (n : nat) : list nat := seq 0 n.

(** ** Python primitives used by the module *)

(** [d[k]] on a dict. *)
Definition getitem {V} (d : gmap string V) (k : string) : result V :=
  match d !! k with
  | Some v => inr v
  | None => inl (KeyError k)
  end.

(** [l[i]] on a list, for the non-negative indices of [range]. *)
Definition index {V} (l : list V) (i : nat) : result V :=
  match l !! i with
  | Some v => inr v
  | None => inl IndexError
  end.

(** [float(n)] for an int: the nearest double, [OverflowError] when there
    is none. *)
Definition float_of_int (z : Z) : result float :=
  let f := SF2Prim (binary_normalize prec emax z 0 false) in
  if is_infinity f then inl OverflowError else inr f.

(** [x /= f] on a numpy float array: every element is divided, with IEEE
    754 arithmetic.  Under numpy's default error state a zero divisor
    gives [inf] or [nan] elements and a warning, and raises nothing. *)
Definition idiv (x : ndarray) (f : float) : ndarray :=
  (fun e => (e / f)%float) <$> x.

(** [v == 'yes'] *)
Definition eq_yes (v : pyval) : bool :=
  match v with
  | PyStr s => bool_decide (s = "yes")
  | _ => false
  end.

(** Truth value of [legend_labels]: [None] and the empty list are false. *)
Definition truthy {A} (l : option (list A)) : bool :=
  match l with
  | Some (_ :: _) => true
  | _ => false
  end.

(** The dictionary of latex names of a call: the initial [[]] or the dict
    the resolver returned. *)
Inductive latex_table :=
| NoNames
| Names (d : gmap string string).

(** [len(latex_names)] *)
Definition len_latex (t : latex_table) : nat :=
  match t with
  | NoNames => 0
  | Names d => size d
  end.

(** [latex_names[k]], reached only when [len(latex_names) != 0]. *)
Definition latex_getitem (t : latex_table) (k : string) : result string :=
  match t with
  | NoNames => inl TypeError
  | Names d => getitem d k
  end.

(** ** The collaborators *)

(** The reader [wnutils.read.xml], the name resolver [wnutils.utils] and
    the parser behind [float(str)].  Each may raise. *)
Record World := {
  get_properties_in_zones_as_floats :
    string -> list string -> result (gmap string ndarray);
  get_mass_fractions_in_zones :
    string -> list string -> result (gmap string ndarray);
  get_abundances_vs_nucleon_number_in_zones :
    string -> string -> option string -> result (list ndarray);
  get_latex_names : list string -> result (gmap string string);
  float_of_str : string -> result float
}.

Section Plot.

Variable w : World.

(** [float(v)] *)
Definition py_float (v : pyval) : result float :=
  match v with
  | PyFloat f => inr f
  | PyInt z => float_of_int z
  | PyBool b => inr (if b then 1%float else 0%float)
  | PyStr s => float_of_str w s
  | PyNone | PyList _ => inl TypeError
  end.

(** [if(key in kwargs): x /= float(kwargs[key])] *)
Definition scale (kwargs : kwargs_t) (key : string) (x : ndarray) : M ndarray :=
  match kwargs !! key with
  | Some v => f ← lift (py_float v); mret (idiv x f)
  | None => mret x
  end.

(** [if('use_latex_names' in kwargs): if(kwargs['use_latex_names'] == 'yes')] *)
Definition use_latex_names (kwargs : kwargs_t) : bool :=
  match kwargs !! "use_latex_names" with
  | Some v => eq_yes v
  | None => false
  end.

(** *** plot_mass_fraction_vs_property_in_files *)

(** Lines 57-60: the two series of one file. *)
Definition series_in_file (prop species : string) (kwargs : kwargs_t)
    (file : string) : M (ndarray * ndarray) :=
  d ← call (GetProperties file [prop])
         (get_properties_in_zones_as_floats w file [prop]);
  x ← lift (getitem d prop);
  x ← scale kwargs "xfactor" x;
  d' ← call (GetMassFractions file [species])
          (get_mass_fractions_in_zones w file [species]);
  y ← lift (getitem d' species);
  mret (x, y).

(** Lines 61-64: the plot call of iteration [i]. *)
Definition plot_in_file (legend_labels : option (list string)) (i : nat)
    (xy : ndarray * ndarray) : M unit :=
  match legend_labels with
  | Some ((_ :: _) as labels) =>
      lab ← lift (index labels i);
      plt_plot (Some xy.1) xy.2 (Some lab)
  | _ => plt_plot (Some xy.1) xy.2 None
  end.

(** Lines 56-64: the body of the loop over the files. *)
Definition in_files_body (files : list string) (prop species : string)
    (legend_labels : option (list string)) (kwargs : kwargs_t) (i : nat) : M unit :=
  file ← lift (index files i);
  xy ← series_in_file prop species kwargs file;
  plot_in_file legend_labels i xy.

(** Lines 68-72: the label of the y axis, set only for latex names. *)
Definition in_files_ylabel (species : string) (kwargs : kwargs_t) : M unit :=
  if use_latex_names kwargs then
    names ← call (GetLatexNames [species]) (get_latex_names w [species]);
    name ← lift (getitem names species);
    emit (Ylabel ("X(" +:+ name +:+ ")"))
  else mret tt.

Definition plot_mass_fraction_vs_property_in_files
    (files : list string) (prop species : string)
    (legend_labels : option (list string)) (kwargs : kwargs_t) : M unit :=
  emit (SetPlotParams Plt kwargs) ;;
  if truthy legend_labels
     && bool_decide (length (default [] legend_labels) ≠ length files)
  then
    (* print the diagnostic and return *)
    emit (Print "Invalid legend labels for input files.")
  else
    emit Figure ;;
    for_in (range (length files))
      (in_files_body files prop species legend_labels kwargs) ;;
    emit (ApplyClassMethods kwargs) ;;
    in_files_ylabel species kwargs ;;
    (if truthy legend_labels then emit Legend else mret tt) ;;
    emit Show.

(** *** plot_mass_fractions and plot_mass_fractions_vs_property *)

(** Lines 117-119 and 191-193: the table of latex names of the call. *)
Definition fetch_latex_names (species : list string) (kwargs : kwargs_t)
    : M latex_table :=
  if use_latex_names kwargs then
    d ← call (GetLatexNames species) (get_latex_names w species);
    mret (Names d)
  else mret NoNames.

(** Lines 122-125 and 196-199: the label of species [i]. *)
Definition species_label (species : list string) (latex_names : latex_table)
    (i : nat) : M string :=
  if bool_decide (len_latex latex_names ≠ 0) then
    s ← lift (index species i); lift (latex_getitem latex_names s)
  else lift (index species i).

(** Lines 128-135 and 202-209: the default label of the y axis. *)
Definition default_ylabel (species : list string) (latex_names : latex_table)
    (kwargs : kwargs_t) : M unit :=
  match kwargs !! "ylabel" with
  | Some _ => mret tt
  | None =>
      if bool_decide (length species ≠ 1) then emit (Ylabel "Mass Fraction")
      else if bool_decide (len_latex latex_names = 0) then
        s ← lift (index species 0);
        emit (Ylabel ("X(" +:+ s +:+ ")"))
      else
        s ← lift (index species 0);
        name ← lift (latex_getitem latex_names s);
        emit (Ylabel ("X(" +:+ name +:+ ")"))
  end.

(** Lines 121-126 and 195-200: the body of the loop over the species;
    [x] is the common abscissa, absent in [plot_mass_fractions]. *)
Definition species_body (species : list string) (latex_names : latex_table)
    (x : option ndarray) (y : gmap string ndarray) (i : nat) : M unit :=
  lab ← species_label species latex_names i;
  s ← lift (index species i);
  ys ← lift (getitem y s);
  plt_plot x ys (Some lab).

Definition plot_mass_fractions
    (file : string) (species : list string) (kwargs : kwargs_t) : M unit :=
  emit (SetPlotParams Mpl kwargs) ;;
  emit Figure ;;
  y ← call (GetMassFractions file species)
         (get_mass_fractions_in_zones w file species);
  latex_names ← fetch_latex_names species kwargs;
  for_in (range (length species)) (species_body species latex_names None y) ;;
  default_ylabel species latex_names kwargs ;;
  (if kwargs !! "xlabel" is None then emit (Xlabel "step") else mret tt) ;;
  emit (ApplyClassMethods kwargs) ;;
  emit Show.

Definition plot_mass_fractions_vs_property
    (file prop : string) (species : list string) (kwargs : kwargs_t) : M unit :=
  emit (SetPlotParams Mpl kwargs) ;;
  emit Figure ;;
  d ← call (GetProperties file [prop])
         (get_properties_in_zones_as_floats w file [prop]);
  x ← lift (getitem d prop);
  x ← scale kwargs "xfactor" x;
  y ← call (GetMassFractions file species)
         (get_mass_fractions_in_zones w file species);
  latex_names ← fetch_latex_names species kwargs;
  for_in (range (length species))
    (species_body species latex_names (Some x) y) ;;
  default_ylabel species latex_names kwargs ;;
  (if bool_decide (length species ≠ 1) then emit Legend else mret tt) ;;
  (if kwargs !! "xlabel" is None then emit (Xlabel prop) else mret tt) ;;
  emit (ApplyClassMethods kwargs) ;;
  emit Show.

(** *** plot_property *)

Definition plot_property (file prop : string) (kwargs : kwargs_t) : M unit :=
  emit (SetPlotParams Mpl kwargs) ;;
  d ← call (GetProperties file [prop])
         (get_properties_in_zones_as_floats w file [prop]);
  x ← lift (getitem d prop);
  x ← scale kwargs "xfactor" x;
  emit (ApplyClassMethods kwargs) ;;
  plt_plot None x None ;;
  emit Show.

(** *** plot_property_vs_property *)

(** [if(key in kwargs): v /= float(kwargs[key])] where [v] is the array
    stored under [name] in [store].  The division is in place: the array
    object inside the dict is the one that changes, and every variable
    bound to it sees the change. *)
Definition scale_at (kwargs : kwargs_t) (key : string)
    (store : gmap string ndarray) (name : string) : M (gmap string ndarray) :=
  match kwargs !! key with
  | Some v => f ← lift (py_float v); mret (alter (fun a => idiv a f) name store)
  | None => mret store
  end.

(** [x] and [y] are references into the dict [result]: when [prop1] and
    [prop2] are the same name they are one array. *)
Definition plot_property_vs_property
    (file prop1 prop2 : string) (kwargs : kwargs_t) : M unit :=
  emit (SetPlotParams Mpl kwargs) ;;
  result ← call (GetProperties file [prop1; prop2])
              (get_properties_in_zones_as_floats w file [prop1; prop2]);
  _ ← lift (getitem result prop1);
  result ← scale_at kwargs "xfactor" result prop1;
  _ ← lift (getitem result prop2);
  result ← scale_at kwargs "yfactor" result prop2;
  emit (ApplyClassMethods kwargs) ;;
  x ← lift (getitem result prop1);
  y ← lift (getitem result prop2);
  plt_plot (Some x) y None ;;
  emit Show.

(** *** plot_zone_abundances_vs_nucleon_number *)

Definition plot_zone_abundances_vs_nucleon_number
    (file nucleon : string) (zone_xpath : option string) (kwargs : kwargs_t)
    : M unit :=
  y ← call (GetAbundances file nucleon zone_xpath)
         (get_abundances_vs_nucleon_number_in_zones w file nucleon zone_xpath);
  emit (ApplyClassMethods kwargs) ;;
  y0 ← lift (index y 0);
  plt_plot None y0 None ;;
  emit Show.

End Plot.

(** ** A concrete reader, for running the functions *)

Module Demo.

Definition props (file : string) : gmap string ndarray :=
  {[ "time" := [1%float; 2%float]; "t9" := [4%float; 8%float] ]}.

Definition fractions (file : string) : gmap string ndarray :=
  {[ "c12" := [0.5%float; 0.25%float]; "o16" := [0.125%float; 0.5%float] ]}.

Definition latex : gmap string string :=
  {[ "c12" := "$^{12}\rm{C}$"; "o16" := "$^{16}\rm{O}$" ]}.

(** Every file but ["missing.xml"] can be read. *)
Definition world : World := {|
  get_properties_in_zones_as_floats file names :=
    if bool_decide (file = "missing.xml") then inl (ReaderError file)
    else inr (props file);
  get_mass_fractions_in_zones file names :=
    if bool_decide (file = "missing.xml") then inl (ReaderError file)
    else inr (fractions file);
  get_abundances_vs_nucleon_number_in_zones file nucleon zone_xpath :=
    inr [[1%float; 2%float]; [3%float; 4%float]];
  get_latex_names names := inr latex;
  float_of_str s := inl ValueError
|}.

(** The same reader with a name resolver that raises, and no
    abundances. *)
Definition nameless : World := {|
  get_properties_in_zones_as_floats :=
    get_properties_in_zones_as_floats world;
  get_mass_fractions_in_zones := get_mass_fractions_in_zones world;
  get_abundances_vs_nucleon_number_in_zones file nucleon zone_xpath := inr [];
  get_latex_names names := inl (NameError "no latex names");
  float_of_str := float_of_str world
|}.

(** The same reader with a name resolver that returns an empty table. *)
Definition blank : World := {|
  get_properties_in_zones_as_floats :=
    get_properties_in_zones_as_floats world;
  get_mass_fractions_in_zones := get_mass_fractions_in_zones world;
  get_abundances_vs_nucleon_number_in_zones :=
    get_abundances_vs_nucleon_number_in_zones world;
  get_latex_names names := inr ∅;
  float_of_str := float_of_str world
|}.

(** A reader whose properties do not all have the same number of
    zones. *)
Definition ragged : World := {|
  get_properties_in_zones_as_floats file names :=
    inr {[ "time" := [1%float; 2%float; 3%float];
           "t9" := [4%float; 8%float] ]};
  get_mass_fractions_in_zones := get_mass_fractions_in_zones world;
  get_abundances_vs_nucleon_number_in_zones :=
    get_abundances_vs_nucleon_number_in_zones world;
  get_latex_names := get_latex_names world;
  float_of_str := float_of_str world
|}.

End Demo.

(** ** What a run shows, and what decides it *)

(** The argument of every [plt.ylabel] call, in call order. *)
Definition ylabels (t : list event) : list string :=
  omap (fun e => match e with Ylabel s => Some s | _ => None end) t.

(** The events of one file of the overlay: two fetches and one plot. *)
Definition is_series_event (e : event) : bool :=
  match e with
  | GetProperties _ _ | GetMassFractions _ _ | Plot _ _ _ => true
  | _ => false
  end.

(** The label that iteration [i] passes to [plt.plot]. *)
Definition label_at (legend_labels : option (list string)) (i : nat)
    : option string :=
  match legend_labels with
  | Some ((_ :: _) as labels) => labels !! i
  | _ => None
  end.

(** The call goes past the check of lines 49-52. *)
Definition labels_accepted (files : list string)
    (legend_labels : option (list string)) : Prop :=
  truthy legend_labels = true ->
  length (default [] legend_labels) = length files.

(** The label of a species under a table of latex names. *)
Definition label_of (latex_names : latex_table) (s : string) : option string :=
  match latex_names with
  | NoNames => Some s
  | Names d => if bool_decide (size d ≠ 0) then d !! s else Some s
  end.

(** The divisor a call takes from [kwargs] under [key]: none when the key
    is absent, [float(kwargs[key])] otherwise. *)
Definition factor (w : World) (kwargs : kwargs_t) (key : string)
    : result (option float) :=
  match kwargs !! key with
  | None => inr None
  | Some v =>
      match py_float w v with
      | inr f => inr (Some f)
      | inl e => inl e
      end
  end.

(** A series after the scaling step. *)
Definition scaled (f : option float) (x : ndarray) : ndarray :=
  match f with
  | Some f => idiv x f
  | None => x
  end.

(** The argument of every [plt.xlabel] call, in call order. *)
Definition xlabels (t : list event) : list string :=
  omap (fun e => match e with Xlabel s => Some s | _ => None end) t.

(** The two arrays of a series handed to [plt.plot], without its label. *)
Definition plotted_arrays (t : list event) : list (option ndarray * ndarray) :=
  (fun s => s.1) <$> plotted t.

(** The reader has the property [prop] and the species [species] of
    [file]: [x] and [y] are the arrays it returns for them. *)
Definition file_series (w : World) (prop species file : string)
    (x y : ndarray) : Prop :=
  exists d d',
    get_properties_in_zones_as_floats w file [prop] = inr d
    /\ d !! prop = Some x
    /\ get_mass_fractions_in_zones w file [species] = inr d'
    /\ d' !! species = Some y.

(** The reader's answer [y] has a series for the species [s], of the
    length of the abscissa [x] when there is one. *)
Definition plottable_species (x : option ndarray) (y : gmap string ndarray)
    (s : string) : Prop :=
  exists ys, y !! s = Some ys /\ same_length x ys = true.

(** The two series of [file] can be fetched and have one length, so
    that [plt.plot] accepts them. *)
Definition plottable_file (w : World) (prop species : string)
    (kwargs : kwargs_t) (file : string) : Prop :=
  exists xy,
    outcome (series_in_file w prop species kwargs file) = inr xy
    /\ length xy.1 = length xy.2.

(** ** Laws of the monad *)

Section Laws.

Context {A B : Type}.

Lemma bind_inr (m : M A) (f : A -> M B) a :
  outcome m = inr a ->
  m ≫= f = (trace m ++ trace (f a), outcome (f a)).
Proof. unfold outcome, trace, mbind, M_bind. by intros ->. Qed.

Lemma bind_inl (m : M A) (f : A -> M B) e :
  outcome m = inl e -> m ≫= f = (trace m, inl e).
Proof. unfold outcome, trace, mbind, M_bind. by intros ->. Qed.

Lemma bind_ret (a : A) (f : A -> M B) : mret a ≫= f = f a.
Proof. unfold mbind, M_bind, mret, M_ret. simpl. by destruct (f a). Qed.

Lemma bind_lift_inr (a : A) (f : A -> M B) : lift (inr a) ≫= f = f a.
Proof. apply bind_ret. Qed.

Lemma bind_lift_inl e (f : A -> M B) : lift (inl e) ≫= f = ([], inl e).
Proof. reflexivity. Qed.

Lemma bind_call_inr ev (a : A) (f : A -> M B) :
  call ev (inr a) ≫= f = (ev :: trace (f a), outcome (f a)).
Proof. reflexivity. Qed.

Lemma bind_call_inl ev e (f : A -> M B) :
  call ev (inl e) ≫= f = ([ev], inl e).
Proof. reflexivity. Qed.

Lemma trace_bind (m : M A) (f : A -> M B) :
  trace (m ≫= f) =
  trace m ++ match outcome m with inr a => trace (f a) | inl _ => [] end.
Proof.
  unfold outcome, trace, mbind, M_bind.
  destruct (m.2); simpl; by rewrite ?app_nil_r.
Qed.

Lemma outcome_bind (m : M A) (f : A -> M B) :
  outcome (m ≫= f) =
  match outcome m with inr a => outcome (f a) | inl e => inl e end.
Proof. unfold outcome, mbind, M_bind. by destruct (m.2). Qed.

End Laws.

Lemma bind_emit {B} ev (f : unit -> M B) :
  emit ev ≫= f = (ev :: trace (f tt), outcome (f tt)).
Proof. reflexivity. Qed.

(** [plt.plot] is always called with its arguments; it returns exactly
    when the lengths agree. *)
Lemma plt_plot_trace x y label : trace (plt_plot x y label) = [Plot x y label].
Proof. reflexivity. Qed.

Lemma plt_plot_returns x y label :
  outcome (plt_plot x y label) = inr tt <-> same_length x y = true.
Proof. unfold plt_plot, call, outcome. simpl. by destruct (same_length x y). Qed.

Lemma plt_plot_ok x y label :
  same_length x y = true -> plt_plot x y label = emit (Plot x y label).
Proof. unfold plt_plot. by intros ->. Qed.

Lemma plt_plot_raises x y label :
  same_length x y = false ->
  plt_plot x y label = ([Plot x y label], inl ValueError).
Proof. unfold plt_plot. by intros ->. Qed.

Lemma same_length_Some x y :
  same_length (Some x) y = true <-> length x = length y.
Proof. apply bool_decide_eq_true. Qed.

Lemma M_eta {A} (m : M A) : (trace m, outcome m) = m.
Proof. by destruct m. Qed.

Lemma run_eq_cons {A} ev (m : M A) t o :
  m = (t, o) -> (ev :: trace m, outcome m) = (ev :: t, o).
Proof. by intros ->. Qed.

(** Every event of a sequential composition comes from one of its parts. *)
Lemma Forall_trace_bind {A B} (P : event -> Prop) (m : M A) (f : A -> M B) :
  Forall P (trace m) -> (forall a, Forall P (trace (f a))) ->
  Forall P (trace (m ≫= f)).
Proof.
  intros Hm Hf. rewrite trace_bind. apply Forall_app. split; [done|].
  destruct (outcome m); [constructor | apply Hf].
Qed.

(** ** The loop *)

Lemma for_in_Forall (P : event -> Prop) l body :
  (forall i, i ∈ l -> Forall P (trace (body i))) ->
  Forall P (trace (for_in l body)).
Proof.
  induction l as [|i l IH]; intros H; simpl; [constructor|].
  apply Forall_trace_bind; [apply H; left|].
  intros _. apply IH. intros j Hj. apply H. by right.
Qed.

(** The loop returns exactly when every iteration does. *)
Lemma for_in_returns l body :
  outcome (for_in l body) = inr tt <->
  forall i, i ∈ l -> outcome (body i) = inr tt.
Proof.
  induction l as [|i l IH]; simpl.
  - split; [intros _ j Hj; inversion Hj | done].
  - rewrite outcome_bind. split.
    + intros H j Hj. destruct (outcome (body i)) as [e|[]] eqn:Hi; [done|].
      apply elem_of_cons in Hj as [->|Hj]; [done|].
      by apply IH.
    + intros H. rewrite (H i) by left.
      apply IH. intros j Hj. apply H. by right.
Qed.

(** The trace of a loop that returns is the traces of its iterations, in
    order. *)
Lemma for_in_trace l body :
  outcome (for_in l body) = inr tt ->
  trace (for_in l body) = l ≫= (fun i => trace (body i)).
Proof.
  induction l as [|i l IH]; simpl; [done|].
  rewrite outcome_bind, trace_bind.
  destruct (outcome (body i)) as [e|[]]; [done|].
  intros H. by rewrite IH.
Qed.

(** A loop stops at its first failing iteration, with the events of the
    iterations before it and of the failing one. *)
Lemma for_in_raises l1 i l2 body e :
  (forall j, j ∈ l1 -> outcome (body j) = inr tt) ->
  outcome (body i) = inl e ->
  for_in (l1 ++ i :: l2) body =
  ((l1 ≫= (fun j => trace (body j))) ++ trace (body i), inl e).
Proof.
  intros H1 Hi. induction l1 as [|j l1 IH]; simpl.
  - by rewrite (bind_inl _ _ _ Hi).
  - rewrite (bind_inr _ _ tt) by (apply H1; left).
    rewrite IH by (intros k Hk; apply H1; by right).
    by rewrite <-app_assoc.
Qed.

(** A sequential composition that returns: both parts returned, and the
    trace is the two traces in order. *)
Lemma bind_returns {A B} (m : M A) (f : A -> M B) b :
  outcome (m ≫= f) = inr b ->
  exists a, outcome m = inr a /\ outcome (f a) = inr b
            /\ trace (m ≫= f) = trace m ++ trace (f a).
Proof.
  rewrite outcome_bind, trace_bind.
  destruct (outcome m) as [e|a]; [done|]. by exists a.
Qed.

(** ** Reading a trace *)

Lemma omap_Forall_None {A B} (f : A -> option B) (l : list A) :
  Forall (fun a => f a = None) l -> omap f l = [].
Proof.
  induction 1 as [|a l Ha _ IH]; [done|]. simpl. by rewrite Ha.
Qed.

Lemma omap_bind_list {A B C} (f : B -> option C) (g : A -> list B) (l : list A) :
  omap f (l ≫= g) = l ≫= (fun a => omap f (g a)).
Proof.
  induction l as [|a l IH]; [done|].
  by rewrite !bind_cons, omap_app, IH.
Qed.

Lemma plotted_app t1 t2 : plotted (t1 ++ t2) = plotted t1 ++ plotted t2.
Proof. apply omap_app. Qed.

Lemma plotted_no_plot t :
  Forall (fun e => is_plot e = false) t -> plotted t = [].
Proof.
  intros H. apply omap_Forall_None.
  eapply Forall_impl; [exact H|]. by intros [].
Qed.

Lemma ylabels_app t1 t2 : ylabels (t1 ++ t2) = ylabels t1 ++ ylabels t2.
Proof. apply omap_app. Qed.

Lemma ylabels_no_ylabel t :
  Forall (fun e => match e with Ylabel _ => False | _ => True end) t ->
  ylabels t = [].
Proof.
  intros H. apply omap_Forall_None.
  eapply Forall_impl; [exact H|]. by intros [].
Qed.

(** Reading a list at every index of its range gives the list. *)
Lemma lookup_range_from {A} (pre l : list A) :
  (fun i => (pre ++ l) !! i) <$> seq (length pre) (length l) = Some <$> l.
Proof.
  revert pre. induction l as [|a l IH]; intros pre; [done|].
  simpl. rewrite list_lookup_middle by done. f_equal.
  specialize (IH (pre ++ [a])).
  rewrite length_app, <-app_assoc in IH. simpl in IH.
  by rewrite Nat.add_1_r in IH.
Qed.

Lemma lookup_range {A} (l : list A) :
  (fun i => l !! i) <$> range (length l) = Some <$> l.
Proof. apply (lookup_range_from [] l). Qed.

Lemma bind_singleton_fmap {A B} (f : A -> B) (l : list A) :
  l ≫= (fun a => [f a]) = f <$> l.
Proof.
  induction l as [|a l IH]; [done|]. by rewrite bind_cons, fmap_cons, IH.
Qed.

Lemma plot_labels_app t1 t2 :
  plot_labels (t1 ++ t2) = plot_labels t1 ++ plot_labels t2.
Proof. unfold plot_labels. by rewrite plotted_app, fmap_app. Qed.

Lemma plot_labels_no_plot t :
  Forall (fun e => is_plot e = false) t -> plot_labels t = [].
Proof. intros H. unfold plot_labels. by rewrite plotted_no_plot. Qed.

(** Iterations that each issue one plot call issue, together, one label
    per iteration. *)
Lemma plot_labels_iterations l (body : nat -> M unit) lab :
  (forall i, i ∈ l -> plot_labels (trace (body i)) = [lab i]) ->
  plot_labels (l ≫= (fun i => trace (body i))) = lab <$> l.
Proof.
  induction l as [|i l IH]; intros H; [done|].
  rewrite bind_cons, plot_labels_app, fmap_cons, (H i) by left.
  rewrite IH; [done|]. intros j Hj. apply H. by right.
Qed.

(** ** Which events a piece of code can issue *)

(** Proves [Forall P (trace m)] by following the structure of [m]; the
    events themselves are left to [done]. *)
Ltac trace_events :=
  repeat first
    [ apply Forall_nil_2
    | apply Forall_cons_2; [by auto|]
    | apply Forall_trace_bind; [|intros ?]
    | apply for_in_Forall; intros ? _
    | progress (cbn [trace emit call plt_plot lift mret M_ret fst])
    | case_match ].

Lemma in_files_body_events w files prop species legend_labels kwargs i :
  Forall (fun e => is_series_event e = true)
    (trace (in_files_body w files prop species legend_labels kwargs i)).
Proof.
  unfold in_files_body, series_in_file, plot_in_file, scale.
  trace_events.
Qed.

(** ** One file of the overlay (lines 56-64) *)

Lemma series_in_file_no_plot w prop species kwargs file :
  Forall (fun e => is_plot e = false)
    (trace (series_in_file w prop species kwargs file)).
Proof. unfold series_in_file, scale. trace_events. Qed.

(** An iteration that returns fetched both series of its file and plotted
    them once, under the label of its index. *)
Lemma in_files_body_returns w files prop species legend_labels kwargs i :
  outcome (in_files_body w files prop species legend_labels kwargs i) = inr tt ->
  exists file x y,
    files !! i = Some file
    /\ outcome (series_in_file w prop species kwargs file) = inr (x, y)
    /\ length x = length y
    /\ plotted (trace (in_files_body w files prop species legend_labels kwargs i))
       = [(Some x, y, label_at legend_labels i)].
Proof.
  unfold in_files_body, index.
  destruct (files !! i) as [file|]; [|done].
  rewrite bind_lift_inr. intros H.
  apply bind_returns in H as ([x y] & Hs & H & ->).
  exists file, x, y. split; [done|]. split; [done|].
  rewrite plotted_app, plotted_no_plot by apply series_in_file_no_plot.
  revert H. unfold plot_in_file, label_at, index. cbn [fst snd].
  destruct legend_labels as [[|l0 labels]|].
  - intros H. by apply plt_plot_returns, same_length_Some in H.
  - destruct ((l0 :: labels) !! i); [|done]. rewrite bind_lift_inr.
    intros H. by apply plt_plot_returns, same_length_Some in H.
  - intros H. by apply plt_plot_returns, same_length_Some in H.
Qed.

(** An iteration whose file cannot be fetched raises before it plots. *)
Lemma in_files_body_raises w files prop species legend_labels kwargs i file e :
  files !! i = Some file ->
  outcome (series_in_file w prop species kwargs file) = inl e ->
  in_files_body w files prop species legend_labels kwargs i
  = (trace (series_in_file w prop species kwargs file), inl e).
Proof.
  intros Hi He. unfold in_files_body, index. rewrite Hi, bind_lift_inr.
  by apply bind_inl.
Qed.

(** An iteration returns when its file can be fetched and it has a
    label, if labels are in use. *)
Lemma in_files_body_ok w files prop species legend_labels kwargs i file xy :
  files !! i = Some file ->
  outcome (series_in_file w prop species kwargs file) = inr xy ->
  length xy.1 = length xy.2 ->
  (truthy legend_labels = true -> is_Some (default [] legend_labels !! i)) ->
  outcome (in_files_body w files prop species legend_labels kwargs i) = inr tt.
Proof.
  intros Hi Hs Hlen Hl. unfold in_files_body, index.
  rewrite Hi, bind_lift_inr, outcome_bind, Hs.
  apply same_length_Some in Hlen.
  unfold plot_in_file, index.
  destruct legend_labels as [[|l0 labels]|];
    try by rewrite plt_plot_ok.
  destruct Hl as [lab Hlab]; [done|]. simpl in Hlab.
  by rewrite Hlab, bind_lift_inr, plt_plot_ok.
Qed.

Lemma in_files_body_plot_labels w files prop species legend_labels kwargs i :
  outcome (in_files_body w files prop species legend_labels kwargs i) = inr tt ->
  plot_labels (trace (in_files_body w files prop species legend_labels kwargs i))
  = [label_at legend_labels i].
Proof.
  intros H. apply in_files_body_returns in H as (file & x & y & _ & _ & _ & H).
  unfold plot_labels. by rewrite H.
Qed.

(** The files before a failing one are fetched and plotted, one by one,
    before the failing one is asked for. *)
Lemma in_files_loop_raises w pre f post prop species legend_labels kwargs e :
  let files := pre ++ f :: post in
  (truthy legend_labels = true ->
   length (default [] legend_labels) = length files) ->
  Forall (plottable_file w prop species kwargs) pre ->
  outcome (series_in_file w prop species kwargs f) = inl e ->
  let body := in_files_body w files prop species legend_labels kwargs in
  (forall j, j ∈ range (length pre) -> outcome (body j) = inr tt)
  /\ for_in (range (length files)) body
     = ((range (length pre) ≫= (fun j => trace (body j)))
        ++ trace (series_in_file w prop species kwargs f), inl e).
Proof.
  intros files Hlab Hpre Hf body.
  assert (Hbefore : forall j, j ∈ range (length pre) ->
            outcome (body j) = inr tt).
  { intros j Hj. apply elem_of_seq in Hj as [_ Hj]. simpl in Hj.
    destruct (lookup_lt_is_Some_2 pre j Hj) as [file Hfile].
    destruct (Forall_lookup_1 _ _ _ _ Hpre Hfile) as (xy & Hxy & Hlen).
    eapply in_files_body_ok; [|exact Hxy|exact Hlen|].
    - unfold files. by rewrite lookup_app_l.
    - intros Ht. apply lookup_lt_is_Some_2. rewrite (Hlab Ht).
      unfold files. rewrite length_app. simpl. lia. }
  split; [exact Hbefore|].
  unfold range in *. unfold files at 1.
  rewrite length_app. simpl length. rewrite seq_app. simpl seq.
  erewrite for_in_raises; [|exact Hbefore|].
  - f_equal. f_equal. subst body.
    erewrite in_files_body_raises; [done| |exact Hf].
    unfold files. by rewrite list_lookup_middle.
  - subst body. erewrite in_files_body_raises; [done| |exact Hf].
    unfold files. by rewrite list_lookup_middle.
Qed.

(** ** The overlay as a whole *)

Lemma labels_accepted_check files legend_labels :
  labels_accepted files legend_labels ->
  truthy legend_labels
  && bool_decide (length (default [] legend_labels) ≠ length files) = false.
Proof.
  unfold labels_accepted. intros H. destruct (truthy legend_labels); [|done].
  simpl. apply bool_decide_eq_false. intros Hne. by apply Hne, H.
Qed.

Lemma in_files_ylabel_events w species kwargs :
  Forall (fun e => match e with GetLatexNames _ | Ylabel _ => True | _ => False end)
    (trace (in_files_ylabel w species kwargs)).
Proof. unfold in_files_ylabel. trace_events. Qed.

(** The shape of a run that went past the check and returned. *)
Lemma in_files_returns w files prop species legend_labels kwargs :
  labels_accepted files legend_labels ->
  let r := plot_mass_fraction_vs_property_in_files
             w files prop species legend_labels kwargs in
  let loop := for_in (range (length files))
                (in_files_body w files prop species legend_labels kwargs) in
  outcome r = inr tt ->
  outcome loop = inr tt
  /\ trace r = [SetPlotParams Plt kwargs; Figure] ++ trace loop
               ++ [ApplyClassMethods kwargs]
               ++ trace (in_files_ylabel w species kwargs)
               ++ (if truthy legend_labels then [Legend] else [])
               ++ [Show].
Proof.
  intros Hacc r loop. subst r.
  unfold plot_mass_fraction_vs_property_in_files.
  rewrite (labels_accepted_check _ _ Hacc).
  rewrite !bind_emit. cbn [outcome trace fst snd]. fold loop. intros H.
  apply bind_returns in H as ([] & Hloop & H & ->). split; [done|].
  cbn [outcome trace fst snd app] in H |- *. do 3 f_equal.
  apply bind_returns in H as ([] & _ & H & ->). f_equal.
  by destruct (truthy legend_labels).
Qed.

(** The overlay returns when every file can be fetched and the latex
    name, if asked for, can be resolved. *)
Lemma in_files_returns_when_readable w files prop species legend_labels kwargs :
  labels_accepted files legend_labels ->
  Forall (plottable_file w prop species kwargs) files ->
  outcome (in_files_ylabel w species kwargs) = inr tt ->
  outcome (plot_mass_fraction_vs_property_in_files
             w files prop species legend_labels kwargs) = inr tt.
Proof.
  intros Hacc Hfiles Hy.
  unfold plot_mass_fraction_vs_property_in_files.
  rewrite (labels_accepted_check _ _ Hacc).
  rewrite !bind_emit. cbn [outcome snd].
  rewrite outcome_bind.
  assert (outcome (for_in (range (length files))
            (in_files_body w files prop species legend_labels kwargs)) = inr tt)
    as ->.
  { apply for_in_returns. intros i Hi. apply elem_of_seq in Hi as [_ Hi].
    simpl in Hi. destruct (lookup_lt_is_Some_2 files i Hi) as [file Hfile].
    destruct (Forall_lookup_1 _ _ _ _ Hfiles Hfile) as (xy & Hxy & Hlen).
    eapply in_files_body_ok; [exact Hfile|exact Hxy|exact Hlen|].
    intros Ht. apply lookup_lt_is_Some_2. by rewrite (Hacc Ht). }
  cbn [outcome snd]. rewrite outcome_bind, Hy.
  by destruct (truthy legend_labels).
Qed.

(** The labels of a returned overlay: one per file, in file order. *)
Lemma in_files_plot_labels w files prop species legend_labels kwargs :
  labels_accepted files legend_labels ->
  let r := plot_mass_fraction_vs_property_in_files
             w files prop species legend_labels kwargs in
  outcome r = inr tt ->
  plot_labels (trace r) = label_at legend_labels <$> range (length files).
Proof.
  intros Hacc r Hr. subst r.
  destruct (in_files_returns w files prop species legend_labels kwargs Hacc Hr)
    as [Hloop ->].
  rewrite !plot_labels_app.
  rewrite (plot_labels_no_plot (trace (in_files_ylabel _ _ _))).
  2:{ eapply Forall_impl; [apply in_files_ylabel_events|]. by intros []. }
  rewrite (plot_labels_no_plot (if truthy legend_labels then _ else _))
    by (destruct (truthy legend_labels); by repeat constructor).
  cbn [plot_labels plotted omap fmap list_fmap app].
  rewrite app_nil_r, (for_in_trace _ _ Hloop).
  apply plot_labels_iterations. intros i Hi.
  apply in_files_body_plot_labels.
  by apply (proj1 (for_in_returns _ _) Hloop).
Qed.

(** No legend and no diagnostic without labels, whatever the reader
    does. *)
Lemma in_files_no_legend_without_labels w files prop species legend_labels kwargs :
  truthy legend_labels = false ->
  Forall (fun e => e ≠ Legend /\ forall msg, e ≠ Print msg)
    (trace (plot_mass_fraction_vs_property_in_files
              w files prop species legend_labels kwargs)).
Proof.
  intros Ht. unfold plot_mass_fraction_vs_property_in_files. rewrite Ht.
  cbn [andb].
  eapply Forall_impl
    with (P := fun e => match e with Legend | Print _ => False | _ => True end).
  - unfold in_files_body, series_in_file, plot_in_file, scale,
      in_files_ylabel.
    trace_events.
  - by intros [].
Qed.

(** ** The loop over the species (lines 121-126 and 195-200) *)

Lemma species_body_no_ylabel species latex_names x y i :
  Forall (fun e => is_plot e = true)
    (trace (species_body species latex_names x y i)).
Proof. unfold species_body, species_label. trace_events. Qed.

(** An iteration that returns plotted its species once, under the label
    the table gives it. *)
Lemma species_body_plot_labels species latex_names x y i :
  outcome (species_body species latex_names x y i) = inr tt ->
  plot_labels (trace (species_body species latex_names x y i))
  = [species !! i ≫= label_of latex_names].
Proof.
  unfold species_body, species_label, index, label_of, latex_getitem, getitem.
  destruct (species !! i) as [s|] eqn:Hs.
  - destruct latex_names as [|d]; cbn [len_latex].
    + rewrite bool_decide_false by lia. rewrite !bind_lift_inr.
      by destruct (y !! s).
    + destruct (bool_decide (size d ≠ 0)); rewrite !bind_lift_inr.
      * destruct (d !! s) eqn:Hd; [|done]. rewrite !bind_lift_inr.
        destruct (y !! s); [|done]. intros _. simpl. by rewrite Hd.
      * by destruct (y !! s).
  - destruct (bool_decide (len_latex latex_names ≠ 0)); by rewrite ?bind_lift_inr.
Qed.

(** The labels of a loop over the species that returned: one per species,
    in the order of the list. *)
Lemma species_loop_plot_labels species latex_names x y :
  let loop := for_in (range (length species))
                (species_body species latex_names x y) in
  outcome loop = inr tt ->
  plot_labels (trace loop) = label_of latex_names <$> species.
Proof.
  intros loop Hloop. subst loop. rewrite (for_in_trace _ _ Hloop).
  rewrite (plot_labels_iterations _ _
             (fun i => species !! i ≫= label_of latex_names)).
  - change (fun i => species !! i ≫= label_of latex_names)
      with ((fun o : option string => o ≫= label_of latex_names)
              ∘ (fun i => species !! i)).
    by rewrite list_fmap_compose, lookup_range, <-list_fmap_compose.
  - intros i Hi. apply species_body_plot_labels.
    by apply (proj1 (for_in_returns _ _) Hloop).
Qed.

Lemma species_loop_events species latex_names x y :
  Forall (fun e => is_plot e = true)
    (trace (for_in (range (length species))
              (species_body species latex_names x y))).
Proof. apply for_in_Forall. intros i _. apply species_body_no_ylabel. Qed.

(** ** Latex names (lines 117-119 and 191-193) *)


Lemma fetch_latex_names_off w species kwargs :
  use_latex_names kwargs = false ->
  fetch_latex_names w species kwargs = mret NoNames.
Proof. unfold fetch_latex_names. by intros ->. Qed.

Lemma fetch_latex_names_on w species kwargs d :
  use_latex_names kwargs = true ->
  get_latex_names w species = inr d ->
  fetch_latex_names w species kwargs = ([GetLatexNames species], inr (Names d)).
Proof. unfold fetch_latex_names. by intros -> ->. Qed.

Lemma fetch_latex_names_events w species kwargs :
  Forall (fun e => e = GetLatexNames species)
    (trace (fetch_latex_names w species kwargs)).
Proof. unfold fetch_latex_names. trace_events. Qed.

(** ** The default label of the y axis (lines 128-135 and 202-209) *)

Lemma default_ylabel_events species latex_names kwargs :
  Forall (fun e => match e with Ylabel _ => True | _ => False end)
    (trace (default_ylabel species latex_names kwargs)).
Proof. unfold default_ylabel. trace_events. Qed.

Lemma default_ylabel_single s kwargs :
  kwargs !! "ylabel" = None ->
  default_ylabel [s] NoNames kwargs = emit (Ylabel ("X(" +:+ s +:+ ")")).
Proof. unfold default_ylabel. by intros ->. Qed.

Lemma default_ylabel_many species latex_names kwargs :
  kwargs !! "ylabel" = None ->
  length species ≠ 1 ->
  default_ylabel species latex_names kwargs = emit (Ylabel "Mass Fraction").
Proof.
  unfold default_ylabel. intros -> Hlen. by rewrite bool_decide_true.
Qed.

(** ** The single-file plots of several species *)

(** The shape of a run of [plot_mass_fractions] that returned. *)
Lemma plot_mass_fractions_returns w file species kwargs :
  let r := plot_mass_fractions w file species kwargs in
  outcome r = inr tt ->
  exists y t,
    get_mass_fractions_in_zones w file species = inr y
    /\ outcome (fetch_latex_names w species kwargs) = inr t
    /\ outcome (for_in (range (length species))
                  (species_body species t None y)) = inr tt
    /\ trace r =
       [SetPlotParams Mpl kwargs; Figure; GetMassFractions file species]
       ++ trace (fetch_latex_names w species kwargs)
       ++ trace (for_in (range (length species))
                   (species_body species t None y))
       ++ trace (default_ylabel species t kwargs)
       ++ (if kwargs !! "xlabel" is None then [Xlabel "step"] else [])
       ++ [ApplyClassMethods kwargs; Show].
Proof.
  intros r. subst r. unfold plot_mass_fractions.
  rewrite !bind_emit. cbn [outcome trace fst snd].
  destruct (get_mass_fractions_in_zones w file species) as [e|y]; [done|].
  rewrite bind_call_inr. cbn [outcome trace fst snd]. intros H.
  apply bind_returns in H as (t & Ht & H & ->).
  apply bind_returns in H as ([] & Hloop & H & ->).
  apply bind_returns in H as ([] & _ & H & ->).
  exists y, t. do 3 (split; [done|]). cbn [app]. do 6 f_equal.
  by destruct (kwargs !! "xlabel").
Qed.

(** The shape of a run of [plot_mass_fractions_vs_property] that
    returned. *)
Lemma plot_mass_fractions_vs_property_returns w file prop species kwargs :
  let r := plot_mass_fractions_vs_property w file prop species kwargs in
  outcome r = inr tt ->
  exists x y t,
    get_mass_fractions_in_zones w file species = inr y
    /\ outcome (fetch_latex_names w species kwargs) = inr t
    /\ outcome (for_in (range (length species))
                  (species_body species t (Some x) y)) = inr tt
    /\ trace r =
       [SetPlotParams Mpl kwargs; Figure; GetProperties file [prop];
        GetMassFractions file species]
       ++ trace (fetch_latex_names w species kwargs)
       ++ trace (for_in (range (length species))
                   (species_body species t (Some x) y))
       ++ trace (default_ylabel species t kwargs)
       ++ (if bool_decide (length species ≠ 1) then [Legend] else [])
       ++ (if kwargs !! "xlabel" is None then [Xlabel prop] else [])
       ++ [ApplyClassMethods kwargs; Show].
Proof.
  intros r. subst r. unfold plot_mass_fractions_vs_property.
  rewrite !bind_emit. cbn [outcome trace fst snd].
  destruct (get_properties_in_zones_as_floats w file [prop]) as [e|d]; [done|].
  rewrite bind_call_inr. cbn [outcome trace fst snd].
  unfold getitem. destruct (d !! prop) as [x0|]; [|done].
  rewrite bind_lift_inr. unfold scale.
  assert (Hscale : forall (m : M ndarray), trace m = [] ->
            forall (f : ndarray -> M unit),
              outcome (m ≫= f) = inr tt ->
              exists x, outcome (f x) = inr tt /\ trace (m ≫= f) = trace (f x)).
  { intros m Hm f H. apply bind_returns in H as (x & _ & H & ->).
    exists x. by rewrite Hm. }
  intros H. apply Hscale in H as (x & H & ->).
  2:{ destruct (kwargs !! "xfactor") as [v|]; [|done]. by destruct (py_float w v). }
  destruct (get_mass_fractions_in_zones w file species) as [e|y]; [done|].
  rewrite bind_call_inr in H |- *. cbn [outcome trace fst snd] in H |- *.
  apply bind_returns in H as (t & Ht & H & ->).
  apply bind_returns in H as ([] & Hloop & H & ->).
  apply bind_returns in H as ([] & _ & H & ->).
  exists x, y, t. do 3 (split; [done|]). cbn [app]. do 7 f_equal.
  destruct (bool_decide (length species ≠ 1)), (kwargs !! "xlabel"); done.
Qed.

Lemma not_elem_of_Forall (P : event -> Prop) t e :
  Forall P t -> ~ P e -> e ∉ t.
Proof. intros H HP He. by apply HP, (proj1 (Forall_forall P t) H). Qed.

(** Labels that fail the check of lines 49-52 end the call there. *)
Lemma in_files_rejected w files prop species legend_labels kwargs :
  truthy legend_labels = true ->
  length (default [] legend_labels) ≠ length files ->
  plot_mass_fraction_vs_property_in_files
    w files prop species legend_labels kwargs
  = ([SetPlotParams Plt kwargs;
      Print "Invalid legend labels for input files."], inr tt).
Proof.
  intros Ht Hlen. unfold plot_mass_fraction_vs_property_in_files.
  by rewrite Ht, bool_decide_true.
Qed.

Lemma default_ylabel_off species kwargs :
  kwargs !! "ylabel" = None ->
  default_ylabel species NoNames kwargs
  = emit (Ylabel match species with
                 | [s] => "X(" +:+ s +:+ ")"
                 | _ => "Mass Fraction"
                 end).
Proof.
  intros H. destruct species as [|s [|s' species]].
  - by apply default_ylabel_many.
  - by apply default_ylabel_single.
  - by apply default_ylabel_many.
Qed.

(** ** Scaling (lines 58-59, 186-187, 251-252 and 296-301) *)

Lemma scale_factor w kwargs key x f :
  factor w kwargs key = inr f ->
  scale w kwargs key x = ([], inr (scaled f x)).
Proof.
  unfold factor, scale. destruct (kwargs !! key) as [v|]; [|by intros [= <-]].
  destruct (py_float w v); [done|]. by intros [= <-].
Qed.

Lemma scale_at_factor w kwargs key store name f :
  factor w kwargs key = inr f ->
  scale_at w kwargs key store name = lift (inr (alter (scaled f) name store)).
Proof.
  unfold factor, scale_at. destruct (kwargs !! key) as [v|].
  - destruct (py_float w v); [done|]. by intros [= <-].
  - intros [= <-]. by rewrite alter_id.
Qed.

Lemma scale_at_cases w kwargs key store name :
  scale_at w kwargs key store name
  = lift match factor w kwargs key with
         | inr f => inr (alter (scaled f) name store)
         | inl e => inl e
         end.
Proof.
  destruct (factor w kwargs key) as [e|f] eqn:Hf;
    [|by apply scale_at_factor].
  revert Hf. unfold factor, scale_at.
  destruct (kwargs !! key) as [v|]; [|done].
  destruct (py_float w v); [|done]. by intros [= ->].
Qed.

Lemma scale_cases w kwargs key x :
  scale w kwargs key x
  = lift match factor w kwargs key with
         | inr f => inr (scaled f x)
         | inl e => inl e
         end.
Proof.
  destruct (factor w kwargs key) as [e|f] eqn:Hf; [|by apply scale_factor].
  revert Hf. unfold factor, scale.
  destruct (kwargs !! key) as [v|]; [|done].
  destruct (py_float w v); [|done]. by intros [= ->].
Qed.

Lemma scaled_length f x : length (scaled f x) = length x.
Proof. destruct f; [apply length_fmap | done]. Qed.

(** Without latex names the loop over the species returns as soon as
    the reader gave a series that can be plotted for every species asked
    for. *)
Lemma species_loop_returns species x y :
  Forall (plottable_species x y) species ->
  outcome (for_in (range (length species))
             (species_body species NoNames x y)) = inr tt.
Proof.
  intros Hy. apply for_in_returns. intros i Hi.
  apply elem_of_seq in Hi as [_ Hi]. simpl in Hi.
  destruct (lookup_lt_is_Some_2 species i Hi) as [s Hs].
  destruct (Forall_lookup_1 _ _ _ _ Hy Hs) as (ys & Hys & Hlen).
  unfold species_body, species_label, index, getitem. cbn [len_latex].
  rewrite bool_decide_false by lia.
  by rewrite Hs, !bind_lift_inr, Hys, bind_lift_inr, plt_plot_ok.
Qed.

Lemma plottable_without_abscissa y species :
  Forall (fun s => is_Some (y !! s)) species ->
  Forall (plottable_species None y) species.
Proof.
  intros Hall. eapply Forall_impl; [exact Hall|].
  intros s [ys Hys]. by exists ys.
Qed.

Lemma default_ylabel_returns species kwargs :
  outcome (default_ylabel species NoNames kwargs) = inr tt.
Proof.
  unfold default_ylabel. destruct (kwargs !! "ylabel"); [done|].
  case_bool_decide as Hlen; [done|]. cbn [len_latex].
  rewrite bool_decide_true by done.
  by destruct species as [|s species].
Qed.

Lemma plot_mass_fractions_returns_when_readable w file species kwargs y :
  use_latex_names kwargs = false ->
  get_mass_fractions_in_zones w file species = inr y ->
  Forall (fun s => is_Some (y !! s)) species ->
  outcome (plot_mass_fractions w file species kwargs) = inr tt.
Proof.
  intros Hoff Hy Hall. unfold plot_mass_fractions.
  rewrite !bind_emit, Hy, bind_call_inr. cbn [outcome snd].
  rewrite (fetch_latex_names_off _ _ _ Hoff), bind_ret.
  rewrite outcome_bind,
    (species_loop_returns _ _ _ (plottable_without_abscissa _ _ Hall)).
  rewrite outcome_bind, default_ylabel_returns.
  by destruct (kwargs !! "xlabel").
Qed.

Lemma plot_mass_fractions_vs_property_returns_when_readable
    w file prop species kwargs d x fx y :
  use_latex_names kwargs = false ->
  get_properties_in_zones_as_floats w file [prop] = inr d ->
  d !! prop = Some x ->
  factor w kwargs "xfactor" = inr fx ->
  get_mass_fractions_in_zones w file species = inr y ->
  Forall (fun s => exists ys, y !! s = Some ys /\ length x = length ys)
    species ->
  outcome (plot_mass_fractions_vs_property w file prop species kwargs) = inr tt.
Proof.
  intros Hoff Hd Hx Hfx Hy Hall.
  assert (Hplot : Forall (plottable_species (Some (scaled fx x)) y) species).
  { eapply Forall_impl; [exact Hall|]. intros s (ys & Hys & Hlen).
    exists ys. split; [done|]. apply same_length_Some.
    by rewrite scaled_length. }
  unfold plot_mass_fractions_vs_property.
  rewrite !bind_emit, Hd, bind_call_inr. cbn [outcome snd].
  unfold getitem. rewrite Hx, bind_lift_inr.
  assert (scale w kwargs "xfactor" x = lift (inr (scaled fx x))) as ->.
  { revert Hfx. unfold factor, scale.
    destruct (kwargs !! "xfactor") as [v|]; [|by intros [= <-]].
    destruct (py_float w v); [done|]. by intros [= <-]. }
  rewrite bind_lift_inr, Hy, bind_call_inr. cbn [outcome snd].
  rewrite (fetch_latex_names_off _ _ _ Hoff), bind_ret.
  rewrite outcome_bind, (species_loop_returns _ _ _ Hplot).
  rewrite outcome_bind, default_ylabel_returns.
  by destruct (bool_decide (length species ≠ 1)), (kwargs !! "xlabel").
Qed.

(** ** Validation of the legend labels (lines 49-52) *)

(** C1, as the code has it: when [legend_labels] is a non-empty list whose
    length differs from the number of files, the call prints the
    diagnostic and returns at once.  The reader is never asked for data
    and matplotlib is never called.  The call returns normally: nothing is
    raised. *)
Theorem in_files_rejects_mismatched_labels
    w files prop species labels kwargs :
  labels ≠ [] ->
  length labels ≠ length files ->
  let r := plot_mass_fraction_vs_property_in_files
             w files prop species (Some labels) kwargs in
  r = ([SetPlotParams Plt kwargs;
        Print "Invalid legend labels for input files."], inr tt)
  /\ Forall (fun e => is_data_call e = false /\ is_render_call e = false)
       (trace r).
Proof.
  intros Hne Hlen r.
  assert (r = ([SetPlotParams Plt kwargs;
                Print "Invalid legend labels for input files."], inr tt))
    as ->.
  { subst r. apply in_files_rejected; [|done]. by destruct labels. }
  split; [done|]. by repeat constructor.
Qed.

Lemma in_files_rejects_mismatched_labels_witness :
  ["one"] ≠ [] /\ length ["one"] ≠ length ["a.xml"; "b.xml"] /\
  plot_mass_fraction_vs_property_in_files
    Demo.world ["a.xml"; "b.xml"] "time" "o16" (Some ["one"]) ∅
  = ([SetPlotParams Plt ∅;
      Print "Invalid legend labels for input files."], inr tt).
Proof.
  split; [done|]. split; [simpl; lia|].
  apply (in_files_rejects_mismatched_labels
           Demo.world ["a.xml"; "b.xml"] "time" "o16" ["one"] ∅);
    [done | simpl; lia].
Defined.

(** An empty list of labels has a length that differs from the number of
    files, and yet the data is fetched and plotted. *)
Lemma in_files_empty_labels_not_rejected :
  length (@nil string) ≠ length ["a.xml"] /\
  plot_mass_fraction_vs_property_in_files
    Demo.world ["a.xml"] "time" "o16" (Some []) ∅
  = ([SetPlotParams Plt ∅; Figure;
      GetProperties "a.xml" ["time"]; GetMassFractions "a.xml" ["o16"];
      Plot (Some [1%float; 2%float]) [0.125%float; 0.5%float] None;
      ApplyClassMethods ∅; Show], inr tt).
Proof. split; [simpl; lia | by vm_compute]. Qed.

(** ** plot_zone_abundances_vs_nucleon_number *)

(** C7: of the sequences the reader returns, the first one is the only one
    that reaches [plt.plot]; whatever follows it has no effect on the
    run. *)
Theorem zone_abundances_plots_first_only
    w file nucleon zone_xpath kwargs y0 rest :
  get_abundances_vs_nucleon_number_in_zones w file nucleon zone_xpath
    = inr (y0 :: rest) ->
  plot_zone_abundances_vs_nucleon_number w file nucleon zone_xpath kwargs
  = ([GetAbundances file nucleon zone_xpath; ApplyClassMethods kwargs;
      Plot None y0 None; Show], inr tt).
Proof.
  intros H. unfold plot_zone_abundances_vs_nucleon_number. by rewrite H.
Qed.

Lemma zone_abundances_plots_first_only_witness :
  plot_zone_abundances_vs_nucleon_number Demo.world "a.xml" "z" None ∅
  = ([GetAbundances "a.xml" "z" None; ApplyClassMethods ∅;
      Plot None [1%float; 2%float] None; Show], inr tt).
Proof.
  apply (zone_abundances_plots_first_only Demo.world "a.xml" "z" None ∅
           [1%float; 2%float] [[3%float; 4%float]]).
  reflexivity.
Defined.

(** ** plot_property_vs_property *)

Lemma filter_Forall_false {A} (p : A -> bool) (l : list A) :
  Forall (fun a => p a = false) l -> List.filter p l = [].
Proof.
  induction 1 as [|a l Ha _ IH]; [done|]. simpl. by rewrite Ha.
Qed.

(** C8: whatever the reader answers, it is asked once, for the two names
    together. *)
Theorem property_vs_property_single_batched_call w file prop1 prop2 kwargs :
  List.filter is_data_call
    (trace (plot_property_vs_property w file prop1 prop2 kwargs))
  = [GetProperties file [prop1; prop2]].
Proof.
  unfold plot_property_vs_property.
  rewrite bind_emit. cbn [trace fst List.filter is_data_call].
  destruct (get_properties_in_zones_as_floats w file [prop1; prop2])
    as [e|result]; [done|].
  rewrite bind_call_inr. cbn [trace fst List.filter is_data_call]. f_equal.
  apply filter_Forall_false. unfold scale_at. trace_events.
Qed.

(** ** The default label of the y axis *)

(** The one [plt.ylabel] call of a returned single-file plot is the one
    of [default_ylabel]. *)
Lemma plot_mass_fractions_ylabels w file species kwargs :
  let r := plot_mass_fractions w file species kwargs in
  outcome r = inr tt ->
  exists t,
    outcome (fetch_latex_names w species kwargs) = inr t
    /\ ylabels (trace r) = ylabels (trace (default_ylabel species t kwargs)).
Proof.
  intros r H. subst r.
  apply plot_mass_fractions_returns in H as (y & t & _ & Ht & _ & ->).
  exists t. split; [done|]. rewrite !ylabels_app.
  rewrite (ylabels_no_ylabel (trace (fetch_latex_names _ _ _))).
  2:{ eapply Forall_impl; [apply fetch_latex_names_events|]. by intros ? ->. }
  rewrite (ylabels_no_ylabel (trace (for_in _ _))).
  2:{ eapply Forall_impl; [apply species_loop_events|]. by intros []. }
  destruct (kwargs !! "xlabel"); simpl; by rewrite app_nil_r.
Qed.

Lemma plot_mass_fractions_vs_property_ylabels w file prop species kwargs :
  let r := plot_mass_fractions_vs_property w file prop species kwargs in
  outcome r = inr tt ->
  exists t,
    outcome (fetch_latex_names w species kwargs) = inr t
    /\ ylabels (trace r) = ylabels (trace (default_ylabel species t kwargs)).
Proof.
  intros r H. subst r.
  apply plot_mass_fractions_vs_property_returns in H
    as (x & y & t & _ & Ht & _ & ->).
  exists t. split; [done|]. rewrite !ylabels_app.
  rewrite (ylabels_no_ylabel (trace (fetch_latex_names _ _ _))).
  2:{ eapply Forall_impl; [apply fetch_latex_names_events|]. by intros ? ->. }
  rewrite (ylabels_no_ylabel (trace (for_in _ _))).
  2:{ eapply Forall_impl; [apply species_loop_events|]. by intros []. }
  destruct (bool_decide (length species ≠ 1)), (kwargs !! "xlabel");
    simpl; by rewrite app_nil_r.
Qed.

(** C5: without a [ylabel] argument, a returning call of
    [plot_mass_fractions] or of [plot_mass_fractions_vs_property] issues
    exactly one [plt.ylabel] call.  For any number of species other than
    one the label is [Mass Fraction], whatever [use_latex_names] says and
    whatever the resolver returned.  For exactly one species and latex
    names off it is [X(<species>)].  With latex names off both calls
    return when the reader gives a series for every name asked for (of the
    length of the abscissa, for the plot against a property). *)
Theorem default_ylabel_of_species w file prop species kwargs :
  kwargs !! "ylabel" = None ->
  let r1 := plot_mass_fractions w file species kwargs in
  let r2 := plot_mass_fractions_vs_property w file prop species kwargs in
  (length species ≠ 1 ->
     (outcome r1 = inr tt -> ylabels (trace r1) = ["Mass Fraction"])
     /\ (outcome r2 = inr tt -> ylabels (trace r2) = ["Mass Fraction"]))
  /\ (forall s, species = [s] -> use_latex_names kwargs = false ->
        (outcome r1 = inr tt -> ylabels (trace r1) = ["X(" +:+ s +:+ ")"])
        /\ (outcome r2 = inr tt ->
            ylabels (trace r2) = ["X(" +:+ s +:+ ")"]))
  /\ (forall y,
        use_latex_names kwargs = false ->
        get_mass_fractions_in_zones w file species = inr y ->
        Forall (fun s => is_Some (y !! s)) species ->
        outcome r1 = inr tt)
  /\ (forall d x fx y,
        use_latex_names kwargs = false ->
        get_properties_in_zones_as_floats w file [prop] = inr d ->
        d !! prop = Some x ->
        factor w kwargs "xfactor" = inr fx ->
        get_mass_fractions_in_zones w file species = inr y ->
        Forall (fun s => exists ys, y !! s = Some ys /\ length x = length ys)
          species ->
        outcome r2 = inr tt).
Proof.
  intros Hy r1 r2. subst r1 r2.
  split; [|split; [|split;
    [ intros y Hoff; by apply plot_mass_fractions_returns_when_readable
    | intros d x fx y Hoff;
      by apply plot_mass_fractions_vs_property_returns_when_readable ]]].
  - intros Hlen. split; intros H.
    + apply plot_mass_fractions_ylabels in H as (t & _ & ->).
      by rewrite (default_ylabel_many _ _ _ Hy Hlen).
    + apply plot_mass_fractions_vs_property_ylabels in H as (t & _ & ->).
      by rewrite (default_ylabel_many _ _ _ Hy Hlen).
  - intros s -> Hoff. split; intros H.
    + apply plot_mass_fractions_ylabels in H as (t & Ht & ->).
      rewrite (fetch_latex_names_off _ _ _ Hoff) in Ht. injection Ht as <-.
      by rewrite (default_ylabel_single _ _ Hy).
    + apply plot_mass_fractions_vs_property_ylabels in H as (t & Ht & ->).
      rewrite (fetch_latex_names_off _ _ _ Hoff) in Ht. injection Ht as <-.
      by rewrite (default_ylabel_single _ _ Hy).
Qed.

Lemma default_ylabel_of_species_witness :
  ylabels (trace (plot_mass_fractions Demo.world "a.xml" ["c12"] ∅))
    = ["X(c12)"]
  /\ ylabels (trace (plot_mass_fractions_vs_property
                      Demo.world "a.xml" "time" ["c12"]
                      {[ "use_latex_names" := PyBool true ]}))
    = ["X(c12)"]
  /\ ylabels (trace (plot_mass_fractions Demo.world "a.xml" ["c12"; "o16"]
                      {[ "use_latex_names" := PyStr "yes" ]}))
    = ["Mass Fraction"]
  /\ ylabels (trace (plot_mass_fractions_vs_property
                      Demo.world "a.xml" "time" ["c12"; "o16"]
                      {[ "use_latex_names" := PyStr "yes" ]}))
    = ["Mass Fraction"]
  /\ outcome (plot_mass_fractions Demo.world "a.xml" ["c12"; "o16"] ∅)
    = inr tt
  /\ outcome (plot_mass_fractions_vs_property
                Demo.world "a.xml" "time" ["c12"; "o16"]
                {[ "xfactor" := PyInt 2 ]})
    = inr tt.
Proof.
  split; [|split; [|split; [|split; [|split]]]].
  - refine (proj1 (proj1 (proj2 (default_ylabel_of_species
                     Demo.world "a.xml" "time" ["c12"] ∅ _))
                   "c12" _ _) _);
      by vm_compute.
  - refine (proj2 (proj1 (proj2 (default_ylabel_of_species
                     Demo.world "a.xml" "time" ["c12"]
                     {[ "use_latex_names" := PyBool true ]} _))
                   "c12" _ _) _);
      by vm_compute.
  - refine (proj1 (proj1 (default_ylabel_of_species
                     Demo.world "a.xml" "time" ["c12"; "o16"]
                     {[ "use_latex_names" := PyStr "yes" ]} _) _) _);
      by vm_compute.
  - refine (proj2 (proj1 (default_ylabel_of_species
                     Demo.world "a.xml" "time" ["c12"; "o16"]
                     {[ "use_latex_names" := PyStr "yes" ]} _) _) _);
      by vm_compute.
  - refine (proj1 (proj2 (proj2 (default_ylabel_of_species
                     Demo.world "a.xml" "time" ["c12"; "o16"] ∅ _)))
              (Demo.fractions "a.xml") _ _ _);
      [by vm_compute..|].
    constructor; [|constructor; [|constructor]]; eexists; by vm_compute.
  - refine (proj2 (proj2 (proj2 (default_ylabel_of_species
                     Demo.world "a.xml" "time" ["c12"; "o16"]
                     {[ "xfactor" := PyInt 2 ]} _)))
              (Demo.props "a.xml") [1%float; 2%float] (Some 2%float)
              (Demo.fractions "a.xml") _ _ _ _ _ _);
      [by vm_compute..|].
    constructor; [|constructor; [|constructor]]; eexists;
      (split; [by vm_compute|reflexivity]).
Defined.


(** ** The legend *)

(** C3, as the code has it: the overlay of several files requests a legend
    exactly when a non-empty list of labels of the right length was
    supplied, however many files there are; the single-file plot of
    several species against a property requests one exactly when the
    number of species is not one. *)
Theorem legend_requested
    w files file prop species species_list legend_labels kwargs :
  let r1 := plot_mass_fraction_vs_property_in_files
              w files prop species legend_labels kwargs in
  let r2 := plot_mass_fractions_vs_property w file prop species_list kwargs in
  (outcome r1 = inr tt ->
   (Legend ∈ trace r1 <->
    truthy legend_labels = true
    /\ length (default [] legend_labels) = length files))
  /\ (outcome r2 = inr tt ->
      (Legend ∈ trace r2 <-> length species_list ≠ 1)).
Proof.
  intros r1 r2. split; intros H.
  - destruct (truthy legend_labels) eqn:Ht.
    + destruct (decide (length (default [] legend_labels) = length files))
        as [Hlen|Hlen].
      * split; [done|]. intros _.
        destruct (in_files_returns w files prop species legend_labels kwargs)
          as [_ Hr]; [by intros _ | exact H |].
        fold r1 in Hr. rewrite Hr, Ht.
        rewrite !elem_of_app. do 4 right. left. left.
      * subst r1. rewrite in_files_rejected by done.
        split; [|by intros []]. cbn [trace fst]. intros Hin.
        by repeat (apply elem_of_cons in Hin as [Hin|Hin]; [done|]);
          apply elem_of_nil in Hin.
    + split; [|by intros []]. intros Hin. exfalso.
      eapply not_elem_of_Forall; [|..|exact Hin].
      * by apply in_files_no_legend_without_labels.
      * by intros [? _].
  - apply plot_mass_fractions_vs_property_returns in H
      as (x & y & t & _ & _ & _ & Hr).
    fold r2 in Hr. rewrite Hr.
    assert (Legend ∉ trace (fetch_latex_names w species_list kwargs)).
    { eapply not_elem_of_Forall; [apply fetch_latex_names_events|simpl; naive_solver]. }
    assert (Legend ∉ trace (for_in (range (length species_list))
                              (species_body species_list t (Some x) y))).
    { eapply not_elem_of_Forall; [apply species_loop_events|simpl; naive_solver]. }
    assert (Legend ∉ trace (default_ylabel species_list t kwargs)).
    { eapply not_elem_of_Forall; [apply default_ylabel_events|simpl; naive_solver]. }
    case_bool_decide as Hlen.
    + split; [done|]. intros _. rewrite !elem_of_app. do 4 right. left. left.
    + split; [|done]. intros Hin. exfalso.
      destruct (kwargs !! "xlabel"); rewrite !elem_of_app in Hin;
        destruct Hin as [Hin|[Hin|[Hin|[Hin|[Hin|[Hin|Hin]]]]]];
        first [ done
              | repeat (apply elem_of_cons in Hin as [Hin|Hin]; [done|]);
                by apply elem_of_nil in Hin ].
Qed.

Lemma legend_requested_witness :
  Legend ∈ trace (plot_mass_fraction_vs_property_in_files
                    Demo.world ["a.xml"; "b.xml"] "time" "o16"
                    (Some ["first"; "second"]) ∅)
  /\ Legend ∈ trace (plot_mass_fractions_vs_property
                       Demo.world "a.xml" "time" ["c12"; "o16"] ∅).
Proof.
  pose proof (legend_requested Demo.world ["a.xml"; "b.xml"] "a.xml" "time"
                "o16" ["c12"; "o16"] (Some ["first"; "second"]) ∅) as [H1 H2].
  split.
  - refine (proj2 (H1 _) _); [by vm_compute | by split].
  - refine (proj2 (H2 _) _); [by vm_compute | simpl; lia].
Defined.

(** Three files and no labels: three series are plotted, the call returns,
    and [plt.legend] is not among the calls. *)
Lemma in_files_three_files_no_legend :
  let r := plot_mass_fraction_vs_property_in_files
             Demo.world ["a.xml"; "b.xml"; "c.xml"] "time" "o16" None ∅ in
  r = ([SetPlotParams Plt ∅; Figure;
        GetProperties "a.xml" ["time"]; GetMassFractions "a.xml" ["o16"];
        Plot (Some [1%float; 2%float]) [0.125%float; 0.5%float] None;
        GetProperties "b.xml" ["time"]; GetMassFractions "b.xml" ["o16"];
        Plot (Some [1%float; 2%float]) [0.125%float; 0.5%float] None;
        GetProperties "c.xml" ["time"]; GetMassFractions "c.xml" ["o16"];
        Plot (Some [1%float; 2%float]) [0.125%float; 0.5%float] None;
        ApplyClassMethods ∅; Show], inr tt)
  /\ Legend ∉ trace r.
Proof.
  intros r.
  assert (Hr : r = ([SetPlotParams Plt ∅; Figure;
        GetProperties "a.xml" ["time"]; GetMassFractions "a.xml" ["o16"];
        Plot (Some [1%float; 2%float]) [0.125%float; 0.5%float] None;
        GetProperties "b.xml" ["time"]; GetMassFractions "b.xml" ["o16"];
        Plot (Some [1%float; 2%float]) [0.125%float; 0.5%float] None;
        GetProperties "c.xml" ["time"]; GetMassFractions "c.xml" ["o16"];
        Plot (Some [1%float; 2%float]) [0.125%float; 0.5%float] None;
        ApplyClassMethods ∅; Show], inr tt)) by (by vm_compute).
  split; [exact Hr|]. rewrite Hr. cbn [trace fst]. intros Hin.
  repeat (apply elem_of_cons in Hin as [Hin|Hin]; [done|]).
  by apply elem_of_nil in Hin.
Qed.

(** ** The labels of the series *)

Lemma plot_mass_fractions_plot_labels w file species kwargs :
  let r := plot_mass_fractions w file species kwargs in
  outcome r = inr tt ->
  exists t, outcome (fetch_latex_names w species kwargs) = inr t
            /\ plot_labels (trace r) = label_of t <$> species.
Proof.
  intros r H. subst r.
  apply plot_mass_fractions_returns in H as (y & t & _ & Ht & Hloop & ->).
  exists t. split; [done|]. rewrite !plot_labels_app.
  rewrite (species_loop_plot_labels _ _ _ _ Hloop).
  rewrite (plot_labels_no_plot (trace (fetch_latex_names _ _ _))).
  2:{ eapply Forall_impl; [apply fetch_latex_names_events|]. by intros ? ->. }
  rewrite (plot_labels_no_plot (trace (default_ylabel _ _ _))).
  2:{ eapply Forall_impl; [apply default_ylabel_events|]. by intros []. }
  rewrite (plot_labels_no_plot (if kwargs !! "xlabel" is None then _ else _))
    by (destruct (kwargs !! "xlabel"); by repeat constructor).
  cbn [plot_labels plotted omap fmap list_fmap app]. by rewrite !app_nil_r.
Qed.

Lemma plot_mass_fractions_vs_property_plot_labels w file prop species kwargs :
  let r := plot_mass_fractions_vs_property w file prop species kwargs in
  outcome r = inr tt ->
  exists t, outcome (fetch_latex_names w species kwargs) = inr t
            /\ plot_labels (trace r) = label_of t <$> species.
Proof.
  intros r H. subst r.
  apply plot_mass_fractions_vs_property_returns in H
    as (x & y & t & _ & Ht & Hloop & ->).
  exists t. split; [done|]. rewrite !plot_labels_app.
  rewrite (species_loop_plot_labels _ _ _ _ Hloop).
  rewrite (plot_labels_no_plot (trace (fetch_latex_names _ _ _))).
  2:{ eapply Forall_impl; [apply fetch_latex_names_events|]. by intros ? ->. }
  rewrite (plot_labels_no_plot (trace (default_ylabel _ _ _))).
  2:{ eapply Forall_impl; [apply default_ylabel_events|]. by intros []. }
  rewrite (plot_labels_no_plot (if bool_decide _ then _ else _))
    by (case_bool_decide; by repeat constructor).
  rewrite (plot_labels_no_plot (if kwargs !! "xlabel" is None then _ else _))
    by (destruct (kwargs !! "xlabel"); by repeat constructor).
  cbn [plot_labels plotted omap fmap list_fmap app]. by rewrite !app_nil_r.
Qed.

(** The two ways the table of latex names decides the labels. *)
Lemma labels_without_latex w species kwargs t :
  use_latex_names kwargs = false ->
  outcome (fetch_latex_names w species kwargs) = inr t ->
  label_of t <$> species = Some <$> species.
Proof.
  intros Hoff. rewrite (fetch_latex_names_off _ _ _ Hoff). by intros [= <-].
Qed.

Lemma labels_with_latex w species kwargs t d :
  use_latex_names kwargs = true ->
  get_latex_names w species = inr d ->
  size d ≠ 0 ->
  outcome (fetch_latex_names w species kwargs) = inr t ->
  label_of t <$> species = (fun s => d !! s) <$> species.
Proof.
  intros Hon Hd Hsize. rewrite (fetch_latex_names_on _ _ _ _ Hon Hd).
  intros [= <-]. unfold label_of. by rewrite bool_decide_true.
Qed.

(** A trace in which no [plt.plot] call carries a label. *)
Lemma plot_labels_unlabelled t :
  Forall (fun e => match e with Plot _ _ (Some _) => False | _ => True end) t ->
  Forall (fun l => l = None) (plot_labels t).
Proof.
  induction 1 as [|e t He _ IH]; [constructor|].
  destruct e as [| | | | | | | |x y [l|]| | | | ]; try exact IH; [done|].
  by constructor.
Qed.

(** The three plots of properties and abundances: a run that returned
    called [plt.plot] once, without a label. *)
Lemma plot_property_plot_labels w file prop kwargs :
  outcome (plot_property w file prop kwargs) = inr tt ->
  plot_labels (trace (plot_property w file prop kwargs)) = [None].
Proof.
  unfold plot_property, getitem. rewrite bind_emit.
  cbn [outcome trace fst snd].
  destruct (get_properties_in_zones_as_floats w file [prop]) as [e|d]; [done|].
  rewrite bind_call_inr. cbn [outcome trace fst snd].
  destruct (d !! prop) as [x|]; [|done].
  rewrite bind_lift_inr, scale_cases.
  by destruct (factor w kwargs "xfactor").
Qed.

Lemma plot_property_vs_property_plot_labels w file prop1 prop2 kwargs :
  outcome (plot_property_vs_property w file prop1 prop2 kwargs) = inr tt ->
  plot_labels (trace (plot_property_vs_property w file prop1 prop2 kwargs))
  = [None].
Proof.
  unfold plot_property_vs_property, getitem. rewrite bind_emit.
  cbn [outcome trace fst snd].
  destruct (get_properties_in_zones_as_floats w file [prop1; prop2])
    as [e|d]; [done|].
  rewrite bind_call_inr. cbn [outcome trace fst snd].
  destruct (d !! prop1) as [x|]; [|done].
  rewrite bind_lift_inr, scale_at_cases.
  destruct (factor w kwargs "xfactor") as [e|fx]; [done|].
  rewrite bind_lift_inr.
  destruct (alter (scaled fx) prop1 d !! prop2) as [y|]; [|done].
  rewrite bind_lift_inr, scale_at_cases.
  destruct (factor w kwargs "yfactor") as [e|fy]; [done|].
  rewrite bind_lift_inr, bind_emit. cbn [outcome trace fst snd].
  destruct (_ !! prop1) as [x'|]; [|done]. rewrite bind_lift_inr.
  destruct (_ !! prop2) as [y'|]; [|done]. rewrite bind_lift_inr.
  unfold plt_plot. by destruct (same_length (Some x') y').
Qed.

Lemma zone_abundances_plot_labels w file nucleon zone_xpath kwargs :
  outcome (plot_zone_abundances_vs_nucleon_number
             w file nucleon zone_xpath kwargs) = inr tt ->
  plot_labels (trace (plot_zone_abundances_vs_nucleon_number
                        w file nucleon zone_xpath kwargs)) = [None].
Proof.
  unfold plot_zone_abundances_vs_nucleon_number.
  destruct (get_abundances_vs_nucleon_number_in_zones w file nucleon zone_xpath)
    as [e|[|y0 rest]]; done.
Qed.

(** C4, as the code has it.  No operation has all three sources of a
    label.  In the overlay of several files a non-empty list of legend
    labels labels series [i] with [legend_labels[i]], verbatim and whatever
    [use_latex_names] says; without such a list the series carry no label
    at all.  In the two single-file plots of several species there is no
    override: the label is the latex name when latex names are on and the
    resolver returned a non-empty table, and the raw species name when
    they are off.  The three remaining operations never pass a label to
    [plt.plot]: a run of theirs that returned made one [plt.plot] call,
    without a label. *)
Theorem series_labels
    w files file prop prop2 species species_list nucleon zone_xpath
    legend_labels kwargs :
  let r1 := plot_mass_fraction_vs_property_in_files
              w files prop species legend_labels kwargs in
  let r2 := plot_mass_fractions w file species_list kwargs in
  let r3 := plot_mass_fractions_vs_property w file prop species_list kwargs in
  let unlabelled (r : M unit) :=
    Forall (fun l => l = None) (plot_labels (trace r))
    /\ (outcome r = inr tt -> plot_labels (trace r) = [None]) in
  (forall labels,
      legend_labels = Some labels -> labels ≠ [] ->
      length labels = length files ->
      outcome r1 = inr tt ->
      plot_labels (trace r1) = Some <$> labels)
  /\ (truthy legend_labels = false ->
      outcome r1 = inr tt ->
      plot_labels (trace r1) = replicate (length files) None)
  /\ (use_latex_names kwargs = false ->
      (outcome r2 = inr tt -> plot_labels (trace r2) = Some <$> species_list)
      /\ (outcome r3 = inr tt -> plot_labels (trace r3) = Some <$> species_list))
  /\ (forall d,
        use_latex_names kwargs = true ->
        get_latex_names w species_list = inr d ->
        size d ≠ 0 ->
        (outcome r2 = inr tt ->
         plot_labels (trace r2) = (fun s => d !! s) <$> species_list)
        /\ (outcome r3 = inr tt ->
            plot_labels (trace r3) = (fun s => d !! s) <$> species_list))
  /\ unlabelled (plot_property w file prop kwargs)
  /\ unlabelled (plot_property_vs_property w file prop prop2 kwargs)
  /\ unlabelled (plot_zone_abundances_vs_nucleon_number
                   w file nucleon zone_xpath kwargs).
Proof.
  intros r1 r2 r3 unlabelled. subst unlabelled. cbv beta.
  split; [|split; [|split; [|split; [|split; [|split]]]]].
  - intros labels -> Hne Hlen H. subst r1.
    rewrite in_files_plot_labels by (done || by intros _).
    destruct labels as [|l0 labels]; [done|].
    change (label_at (Some (l0 :: labels)))
      with (fun i => (l0 :: labels) !! i).
    by rewrite <-Hlen, lookup_range.
  - intros Ht H. subst r1.
    rewrite in_files_plot_labels
      by (done || (unfold labels_accepted; by rewrite Ht)).
    rewrite (const_fmap _ _ None).
    + unfold range. by rewrite length_seq.
    + intros i. by destruct legend_labels as [[|]|].
  - intros Hoff. subst r2 r3. split; intros H.
    + apply plot_mass_fractions_plot_labels in H as (t & Ht & ->).
      by eapply labels_without_latex.
    + apply plot_mass_fractions_vs_property_plot_labels in H as (t & Ht & ->).
      by eapply labels_without_latex.
  - intros d Hon Hd Hsize. subst r2 r3. split; intros H.
    + apply plot_mass_fractions_plot_labels in H as (t & Ht & ->).
      by eapply labels_with_latex.
    + apply plot_mass_fractions_vs_property_plot_labels in H as (t & Ht & ->).
      by eapply labels_with_latex.
  - split; [|apply plot_property_plot_labels].
    apply plot_labels_unlabelled. unfold plot_property, scale. trace_events.
  - split; [|apply plot_property_vs_property_plot_labels].
    apply plot_labels_unlabelled. unfold plot_property_vs_property, scale_at.
    trace_events.
  - split; [|apply zone_abundances_plot_labels].
    apply plot_labels_unlabelled.
    unfold plot_zone_abundances_vs_nucleon_number. trace_events.
Qed.

Lemma series_labels_witness :
  let yes : kwargs_t := {[ "use_latex_names" := PyStr "yes" ]} in
  plot_labels (trace (plot_mass_fraction_vs_property_in_files
                        Demo.world ["a.xml"; "b.xml"] "time" "o16"
                        (Some ["first"; "second"]) yes))
    = [Some "first"; Some "second"]
  /\ plot_labels (trace (plot_mass_fraction_vs_property_in_files
                           Demo.world ["a.xml"; "b.xml"] "time" "o16" None yes))
    = [None; None]
  /\ plot_labels (trace (plot_mass_fractions Demo.world "a.xml" ["c12"; "o16"] ∅))
    = [Some "c12"; Some "o16"]
  /\ plot_labels (trace (plot_mass_fractions_vs_property
                           Demo.world "a.xml" "time" ["c12"; "o16"] yes))
    = [Some "$^{12}\rm{C}$"; Some "$^{16}\rm{O}$"]
  /\ plot_labels (trace (plot_property Demo.world "a.xml" "time" yes)) = [None]
  /\ plot_labels (trace (plot_property_vs_property
                           Demo.world "a.xml" "time" "t9" yes)) = [None]
  /\ plot_labels (trace (plot_zone_abundances_vs_nucleon_number
                           Demo.world "a.xml" "z" None yes)) = [None].
Proof.
  intros yes.
  pose proof (series_labels Demo.world ["a.xml"; "b.xml"] "a.xml" "time" "t9"
                "o16" ["c12"; "o16"] "z" None (Some ["first"; "second"]) yes)
    as (Ha & _).
  pose proof (series_labels Demo.world ["a.xml"; "b.xml"] "a.xml" "time" "t9"
                "o16" ["c12"; "o16"] "z" None None yes)
    as (_ & Hb & _ & Hd & He & Hf & Hg).
  pose proof (series_labels Demo.world ["a.xml"; "b.xml"] "a.xml" "time" "t9"
                "o16" ["c12"; "o16"] "z" None None ∅) as (_ & _ & Hc & _).
  split; [|split; [|split; [|split; [|split; [|split]]]]].
  - refine (Ha ["first"; "second"] _ _ _ _); by vm_compute.
  - refine (Hb _ _); by vm_compute.
  - refine (proj1 (Hc _) _); by vm_compute.
  - refine (eq_trans (proj2 (Hd Demo.latex _ _ _) _) _); by vm_compute.
  - refine (proj2 He _); by vm_compute.
  - refine (proj2 Hf _); by vm_compute.
  - refine (proj2 Hg _); by vm_compute.
Defined.

(** No legend labels, latex names on: the series is plotted without a
    label; it gets neither the latex name nor the raw name of the
    species. *)
Lemma in_files_series_unlabelled :
  let yes : kwargs_t := {[ "use_latex_names" := PyStr "yes" ]} in
  let r := plot_mass_fraction_vs_property_in_files
             Demo.world ["a.xml"] "time" "o16" None yes in
  use_latex_names yes = true
  /\ outcome r = inr tt
  /\ plot_labels (trace r) = [None]
  /\ ylabels (trace r) = ["X($^{16}\rm{O}$)"].
Proof. repeat split; by vm_compute. Qed.

(** ** Latex names *)




(** ** Scaling *)

(** Two different names: each series is scaled by its own factor, and
    the two scaled series reach [plt.plot]. *)
Lemma property_vs_property_plot w file prop1 prop2 kwargs d x y fx fy :
  get_properties_in_zones_as_floats w file [prop1; prop2] = inr d ->
  d !! prop1 = Some x ->
  d !! prop2 = Some y ->
  prop1 ≠ prop2 ->
  factor w kwargs "xfactor" = inr fx ->
  factor w kwargs "yfactor" = inr fy ->
  plot_property_vs_property w file prop1 prop2 kwargs
  = ([SetPlotParams Mpl kwargs; GetProperties file [prop1; prop2];
      ApplyClassMethods kwargs]
      ++ trace (plt_plot (Some (scaled fx x)) (scaled fy y) None ;; emit Show),
     outcome (plt_plot (Some (scaled fx x)) (scaled fy y) None ;; emit Show)).
Proof.
  intros Hd Hx Hy Hne Hfx Hfy. unfold plot_property_vs_property.
  rewrite bind_emit. apply run_eq_cons.
  rewrite Hd, bind_call_inr. apply run_eq_cons.
  unfold getitem. rewrite Hx, bind_lift_inr.
  rewrite (scale_at_factor _ _ _ _ _ _ Hfx), bind_lift_inr.
  rewrite lookup_alter_ne, Hy, bind_lift_inr by done.
  rewrite (scale_at_factor _ _ _ _ _ _ Hfy), bind_lift_inr.
  rewrite bind_emit. apply run_eq_cons.
  assert (alter (scaled fy) prop2 (alter (scaled fx) prop1 d) !! prop1
          = Some (scaled fx x)) as ->
    by (by rewrite lookup_alter_ne, lookup_alter_eq, Hx).
  assert (alter (scaled fy) prop2 (alter (scaled fx) prop1 d) !! prop2
          = Some (scaled fy y)) as ->
    by (by rewrite lookup_alter_eq, lookup_alter_ne, Hy).
  rewrite !bind_lift_inr. symmetry. apply M_eta.
Qed.

Lemma same_length_scaled fx fy x y :
  same_length (Some (scaled fx x)) (scaled fy y)
  = bool_decide (length x = length y).
Proof. unfold same_length. by rewrite !scaled_length. Qed.

(** X14: one name for both axes: [x] and [y] are the same array, the
    division is in place, and each of the two series has been divided by
    both factors when it is plotted. *)
Lemma property_vs_property_same_name w file prop kwargs d x fx fy :
  get_properties_in_zones_as_floats w file [prop; prop] = inr d ->
  d !! prop = Some x ->
  factor w kwargs "xfactor" = inr fx ->
  factor w kwargs "yfactor" = inr fy ->
  plot_property_vs_property w file prop prop kwargs
  = ([SetPlotParams Mpl kwargs; GetProperties file [prop; prop];
      ApplyClassMethods kwargs;
      Plot (Some (scaled fy (scaled fx x))) (scaled fy (scaled fx x)) None;
      Show], inr tt).
Proof.
  intros Hd Hx Hfx Hfy. unfold plot_property_vs_property.
  rewrite bind_emit. apply run_eq_cons.
  rewrite Hd, bind_call_inr. apply run_eq_cons.
  unfold getitem. rewrite Hx, bind_lift_inr.
  rewrite (scale_at_factor _ _ _ _ _ _ Hfx), bind_lift_inr.
  rewrite lookup_alter_eq, Hx.
  cbn [fmap option_fmap option_map]. rewrite bind_lift_inr.
  rewrite (scale_at_factor _ _ _ _ _ _ Hfy), bind_lift_inr.
  rewrite bind_emit. apply run_eq_cons.
  rewrite !lookup_alter_eq, Hx.
  cbn [fmap option_fmap option_map]. rewrite !bind_lift_inr.
  by rewrite plt_plot_ok by (by apply same_length_Some).
Qed.

(** C2, as the code has it: a series whose factor is absent from [kwargs]
    reaches [plt.plot] unchanged; a series whose factor is present has
    every element divided by [float(factor)] in IEEE double arithmetic.
    Zero is a divisor like any other: the elements become [inf] or [nan]
    and the division raises nothing.  The two scaled series are handed to
    [plt.plot]; when they have one length the call runs to [plt.show] and
    returns, and when they have not, [plt.plot] raises [ValueError] and
    nothing is shown. *)
Theorem scaling_divides_elementwise
    w file prop1 prop2 kwargs d x y fx fy :
  get_properties_in_zones_as_floats w file [prop1; prop2] = inr d ->
  d !! prop1 = Some x ->
  d !! prop2 = Some y ->
  prop1 ≠ prop2 ->
  factor w kwargs "xfactor" = inr fx ->
  factor w kwargs "yfactor" = inr fy ->
  (length x = length y ->
     plot_property_vs_property w file prop1 prop2 kwargs
     = ([SetPlotParams Mpl kwargs; GetProperties file [prop1; prop2];
         ApplyClassMethods kwargs;
         Plot (Some (scaled fx x)) (scaled fy y) None; Show], inr tt))
  /\ (length x ≠ length y ->
     plot_property_vs_property w file prop1 prop2 kwargs
     = ([SetPlotParams Mpl kwargs; GetProperties file [prop1; prop2];
         ApplyClassMethods kwargs;
         Plot (Some (scaled fx x)) (scaled fy y) None], inl ValueError))
  /\ scale w kwargs "xfactor" x = ([], inr (scaled fx x))
  /\ (kwargs !! "xfactor" = None -> scaled fx x = x)
  /\ (kwargs !! "yfactor" = None -> scaled fy y = y)
  /\ (forall v f, kwargs !! "xfactor" = Some v -> py_float w v = inr f ->
        scaled fx x = (fun e => (e / f)%float) <$> x)
  /\ (forall v f, kwargs !! "yfactor" = Some v -> py_float w v = inr f ->
        scaled fy y = (fun e => (e / f)%float) <$> y)
  /\ py_float w (PyInt 0) = inr 0%float
  /\ py_float w (PyFloat 0) = inr 0%float.
Proof.
  intros Hd Hx Hy Hne Hfx Hfy.
  split.
  { intros Hlen.
    rewrite (property_vs_property_plot _ _ _ _ _ _ _ _ _ _
               Hd Hx Hy Hne Hfx Hfy).
    unfold plt_plot. rewrite same_length_scaled, bool_decide_true by done.
    reflexivity. }
  split.
  { intros Hlen.
    rewrite (property_vs_property_plot _ _ _ _ _ _ _ _ _ _
               Hd Hx Hy Hne Hfx Hfy).
    unfold plt_plot. rewrite same_length_scaled, bool_decide_false by done.
    reflexivity. }
  split; [by apply scale_factor|].
  unfold factor in Hfx, Hfy. repeat split.
  - intros H. rewrite H in Hfx. by injection Hfx as <-.
  - intros H. rewrite H in Hfy. by injection Hfy as <-.
  - intros v f H Hf. rewrite H, Hf in Hfx. by injection Hfx as <-.
  - intros v f H Hf. rewrite H, Hf in Hfy. by injection Hfy as <-.
Qed.

Lemma scaling_divides_elementwise_witness :
  plot_property_vs_property Demo.world "a.xml" "time" "t9"
    {[ "xfactor" := PyInt 2 ]}
  = ([SetPlotParams Mpl {[ "xfactor" := PyInt 2 ]};
      GetProperties "a.xml" ["time"; "t9"];
      ApplyClassMethods {[ "xfactor" := PyInt 2 ]};
      Plot (Some [0.5%float; 1%float]) [4%float; 8%float] None; Show],
     inr tt)
  /\ plot_property_vs_property Demo.ragged "a.xml" "time" "t9"
       {[ "yfactor" := PyInt 2 ]}
     = ([SetPlotParams Mpl {[ "yfactor" := PyInt 2 ]};
         GetProperties "a.xml" ["time"; "t9"];
         ApplyClassMethods {[ "yfactor" := PyInt 2 ]};
         Plot (Some [1%float; 2%float; 3%float]) [2%float; 4%float] None],
        inl ValueError).
Proof.
  split.
  - refine (proj1 (scaling_divides_elementwise
                     Demo.world "a.xml" "time" "t9" {[ "xfactor" := PyInt 2 ]}
                     (Demo.props "a.xml") [1%float; 2%float] [4%float; 8%float]
                     (Some 2%float) None _ _ _ _ _ _) _);
      by vm_compute.
  - refine (proj1 (proj2 (scaling_divides_elementwise
                     Demo.ragged "a.xml" "time" "t9" {[ "yfactor" := PyInt 2 ]}
                     {[ "time" := [1%float; 2%float; 3%float];
                        "t9" := [4%float; 8%float] ]}
                     [1%float; 2%float; 3%float] [4%float; 8%float]
                     None (Some 2%float) _ _ _ _ _ _)) _);
      by vm_compute.
Defined.

(** A factor of zero: every element of the series becomes [inf], and the
    call runs to [plt.show] and returns. *)
Lemma zero_factor_raises_nothing :
  py_float Demo.world (PyInt 0) = inr 0%float
  /\ plot_property_vs_property Demo.world "a.xml" "time" "t9"
       {[ "xfactor" := PyInt 0 ]}
     = ([SetPlotParams Mpl {[ "xfactor" := PyInt 0 ]};
         GetProperties "a.xml" ["time"; "t9"];
         ApplyClassMethods {[ "xfactor" := PyInt 0 ]};
         Plot (Some [infinity; infinity]) [4%float; 8%float] None; Show],
        inr tt).
Proof. split; by vm_compute. Qed.

(** * Further properties of the six operations *)

(** ** Lists of iterations *)

Lemma filter_bind_list {A B} (p : B -> bool) (g : A -> list B) (l : list A) :
  List.filter p (l ≫= g) = l ≫= (fun a => List.filter p (g a)).
Proof.
  induction l as [|a l IH]; [done|].
  by rewrite !bind_cons, List.filter_app, IH.
Qed.

Lemma bind_list_ext_in {A B} (g h : A -> list B) (l : list A) :
  (forall a, a ∈ l -> g a = h a) -> l ≫= g = l ≫= h.
Proof.
  induction l as [|a l IH]; intros H; [done|].
  rewrite !bind_cons, (H a) by left. f_equal. apply IH.
  intros b Hb. apply H. by right.
Qed.

Lemma bind_fmap_list {A B C} (f : A -> B) (g : B -> list C) (l : list A) :
  (f <$> l) ≫= g = l ≫= (fun a => g (f a)).
Proof.
  induction l as [|a l IH]; [done|].
  by rewrite fmap_cons, !bind_cons, IH.
Qed.

Lemma lookup_total_range {A} `{!Inhabited A} (l : list A) :
  (fun i => l !!! i) <$> range (length l) = l.
Proof.
  rewrite (list_fmap_ext _ (default inhabitant ∘ (fun i => l !! i))).
  - rewrite list_fmap_compose, lookup_range, <-list_fmap_compose.
    by rewrite <-(list_fmap_id l) at 2.
  - intros i j _. simpl. apply list_lookup_total_alt.
Qed.

Lemma range_lookup_total {A} `{!Inhabited A} (l : list A) i x :
  l !! i = Some x -> l !!! i = x.
Proof. intros H. by rewrite list_lookup_total_alt, H. Qed.

Lemma elem_of_range i n : i ∈ range n <-> i < n.
Proof. unfold range. rewrite elem_of_seq. lia. Qed.

(** Iterations that each issue one plot call issue, together, one series
    per iteration. *)
Lemma plotted_iterations l (body : nat -> M unit) g :
  (forall i, i ∈ l -> plotted (trace (body i)) = [g i]) ->
  plotted (l ≫= (fun i => trace (body i))) = g <$> l.
Proof.
  induction l as [|i l IH]; intros H; [done|].
  rewrite bind_cons, plotted_app, fmap_cons, (H i) by left.
  rewrite IH; [done|]. intros j Hj. apply H. by right.
Qed.

(** ** The overlay: what is fetched and what is plotted *)

Lemma bind_nil_inr {A B} (a : A) (f : A -> M B) : ([], inr a) ≫= f = f a.
Proof. apply bind_ret. Qed.

(** A file whose two series were fetched was asked for each of them once,
    the property first. *)
Lemma series_in_file_trace w prop species kwargs file xy :
  outcome (series_in_file w prop species kwargs file) = inr xy ->
  trace (series_in_file w prop species kwargs file)
  = [GetProperties file [prop]; GetMassFractions file [species]].
Proof.
  unfold series_in_file, scale, getitem.
  destruct (get_properties_in_zones_as_floats w file [prop]) as [e|d]; [done|].
  rewrite bind_call_inr. destruct (d !! prop) as [x|]; [|done].
  rewrite bind_lift_inr.
  destruct (kwargs !! "xfactor") as [v|].
  - destruct (py_float w v) as [e|f]; [done|]. rewrite bind_lift_inr, bind_ret.
    destruct (get_mass_fractions_in_zones w file [species]) as [e|d']; [done|].
    rewrite bind_call_inr. by destruct (d' !! species).
  - rewrite bind_ret.
    destruct (get_mass_fractions_in_zones w file [species]) as [e|d']; [done|].
    rewrite bind_call_inr. by destruct (d' !! species).
Qed.

Lemma series_in_file_run w prop species kwargs file x y fx :
  file_series w prop species file x y ->
  factor w kwargs "xfactor" = inr fx ->
  series_in_file w prop species kwargs file
  = ([GetProperties file [prop]; GetMassFractions file [species]],
     inr (scaled fx x, y)).
Proof.
  intros (d & d' & Hd & Hx & Hd' & Hy) Hfx.
  unfold series_in_file, getitem.
  rewrite Hd, bind_call_inr, Hx, bind_lift_inr.
  rewrite (scale_factor _ _ _ _ _ Hfx), bind_nil_inr.
  by rewrite Hd', bind_call_inr, Hy, bind_lift_inr.
Qed.

Lemma in_files_body_data_calls w files prop species legend_labels kwargs i :
  outcome (in_files_body w files prop species legend_labels kwargs i) = inr tt ->
  List.filter is_data_call
    (trace (in_files_body w files prop species legend_labels kwargs i))
  = [GetProperties (files !!! i) [prop]; GetMassFractions (files !!! i) [species]].
Proof.
  unfold in_files_body, index.
  destruct (files !! i) as [file|] eqn:Hfile; [|done].
  rewrite (range_lookup_total _ _ _ Hfile), bind_lift_inr. intros H.
  apply bind_returns in H as (xy & Hs & H & ->).
  rewrite (series_in_file_trace _ _ _ _ _ _ Hs), List.filter_app.
  cbn [List.filter is_data_call app]. do 2 f_equal.
  apply filter_Forall_false. unfold plot_in_file. trace_events.
Qed.

(** X1: an overlay that went past the check of the labels and returned
    asked the reader twice per file and in file order: for the property of
    the file, then for the mass fraction of the species in it.  Nothing
    else was asked of the reader. *)
Theorem in_files_data_calls w files prop species legend_labels kwargs :
  labels_accepted files legend_labels ->
  let r := plot_mass_fraction_vs_property_in_files
             w files prop species legend_labels kwargs in
  outcome r = inr tt ->
  List.filter is_data_call (trace r)
  = files ≫= (fun file => [GetProperties file [prop];
                           GetMassFractions file [species]]).
Proof.
  intros Hacc r Hr. subst r.
  destruct (in_files_returns w files prop species legend_labels kwargs Hacc Hr)
    as [Hloop ->].
  rewrite !List.filter_app.
  rewrite (filter_Forall_false _ (trace (in_files_ylabel _ _ _))).
  2:{ eapply Forall_impl; [apply in_files_ylabel_events|]. by intros []. }
  rewrite (filter_Forall_false _ (if truthy legend_labels then _ else _))
    by (destruct (truthy legend_labels); by repeat constructor).
  cbn [List.filter is_data_call app]. rewrite app_nil_r.
  rewrite (for_in_trace _ _ Hloop), filter_bind_list.
  rewrite (bind_list_ext_in _
             (fun i => [GetProperties (files !!! i) [prop];
                        GetMassFractions (files !!! i) [species]])).
  - rewrite <-(bind_fmap_list (fun i => files !!! i)
                 (fun file => [GetProperties file [prop];
                               GetMassFractions file [species]])).
    by rewrite lookup_total_range.
  - intros i Hi. apply in_files_body_data_calls.
    by apply (proj1 (for_in_returns _ _) Hloop).
Qed.

Lemma in_files_data_calls_witness :
  List.filter is_data_call
    (trace (plot_mass_fraction_vs_property_in_files
              Demo.world ["a.xml"; "b.xml"] "time" "o16" (Some ["a"; "b"]) ∅))
  = [GetProperties "a.xml" ["time"]; GetMassFractions "a.xml" ["o16"];
     GetProperties "b.xml" ["time"]; GetMassFractions "b.xml" ["o16"]].
Proof.
  refine (in_files_data_calls
            Demo.world ["a.xml"; "b.xml"] "time" "o16" (Some ["a"; "b"]) ∅ _ _);
    by vm_compute.
Defined.

Lemma plotted_arrays_app t1 t2 :
  plotted_arrays (t1 ++ t2) = plotted_arrays t1 ++ plotted_arrays t2.
Proof. unfold plotted_arrays. by rewrite plotted_app, fmap_app. Qed.

Lemma plotted_arrays_cons_other e t :
  is_plot e = false -> plotted_arrays (e :: t) = plotted_arrays t.
Proof. by destruct e. Qed.

Lemma plotted_arrays_no_plot t :
  Forall (fun e => is_plot e = false) t -> plotted_arrays t = [].
Proof. intros H. unfold plotted_arrays. by rewrite plotted_no_plot. Qed.

Lemma file_series_plottable w prop species kwargs file x y fx :
  file_series w prop species file x y ->
  factor w kwargs "xfactor" = inr fx ->
  length x = length y ->
  plottable_file w prop species kwargs file.
Proof.
  intros Hxy Hfx Hlen. exists (scaled fx x, y). split.
  - by rewrite (series_in_file_run _ _ _ _ _ _ _ _ Hxy Hfx).
  - simpl. by rewrite scaled_length.
Qed.

Lemma file_series_readable w files series prop species kwargs fx :
  Forall2 (fun file xy => file_series w prop species file xy.1 xy.2)
    files series ->
  factor w kwargs "xfactor" = inr fx ->
  Forall (fun xy => length xy.1 = length xy.2) series ->
  Forall (plottable_file w prop species kwargs) files.
Proof.
  intros Hall Hfx. induction Hall as [|file xy files series Hxy _ IH];
    intros Hlen; [constructor|].
  apply Forall_cons in Hlen as [Hlen Hrest]. constructor; [|by apply IH].
  by eapply file_series_plottable.
Qed.

(** What the iterations over the first files hand to [plt.plot]: for
    each file, what the reader has for it, the property divided by the
    factor. *)
Lemma in_files_iterations_plotted
    w files series prop species legend_labels kwargs fx :
  let body := in_files_body w files prop species legend_labels kwargs in
  (forall i, i ∈ range (length series) -> outcome (body i) = inr tt) ->
  (forall i xy, series !! i = Some xy ->
     exists file, files !! i = Some file
                  /\ file_series w prop species file xy.1 xy.2) ->
  factor w kwargs "xfactor" = inr fx ->
  plotted_arrays (range (length series) ≫= (fun i => trace (body i)))
  = (fun xy => (Some (scaled fx xy.1), xy.2)) <$> series.
Proof.
  intros body Hbody Hseries Hfx. subst body. unfold plotted_arrays.
  rewrite (plotted_iterations _ _
             (fun i => (Some (scaled fx (series !!! i).1), (series !!! i).2,
                        label_at legend_labels i))).
  - transitivity ((fun xy : ndarray * ndarray => (Some (scaled fx xy.1), xy.2))
                    <$> ((fun i => series !!! i) <$> range (length series))).
    + by rewrite <-!list_fmap_compose.
    + by rewrite lookup_total_range.
  - intros i Hi. specialize (Hbody i Hi). apply elem_of_range in Hi.
    destruct (lookup_lt_is_Some_2 series i Hi) as [xy Hxy].
    destruct (Hseries i xy Hxy) as (file & Hfile & Hfs).
    apply in_files_body_returns in Hbody
      as (file' & x & y & Hfile' & Hs & _ & ->).
    rewrite Hfile in Hfile'. injection Hfile' as <-.
    rewrite (series_in_file_run _ _ _ _ _ _ _ _ Hfs Hfx) in Hs.
    injection Hs as <- <-. by rewrite (range_lookup_total _ _ _ Hxy).
Qed.

(** ** A reader failure in the middle of an overlay *)

(** C6, as the code has it: when the series of file [k] cannot be fetched,
    the exception reaches the caller as it was raised, and
    [apply_class_methods], [plt.ylabel], [plt.legend] and [plt.show] are
    never called.  But the figure was opened, and every file before [k] was
    already handed to [plt.plot], one call per file and in file order:
    with the label of its index, and with the series the reader has for
    it, the property divided by [xfactor] against the mass fraction. *)
Theorem in_files_stops_at_failing_file
    w pre f post prop species legend_labels kwargs e :
  let files := pre ++ f :: post in
  labels_accepted files legend_labels ->
  Forall (plottable_file w prop species kwargs) pre ->
  outcome (series_in_file w prop species kwargs f) = inl e ->
  let r := plot_mass_fraction_vs_property_in_files
             w files prop species legend_labels kwargs in
  outcome r = inl e
  /\ Forall (fun ev => match ev with
                       | ApplyClassMethods _ | Ylabel _ | Legend | Show => False
                       | _ => True
                       end) (trace r)
  /\ Figure ∈ trace r
  /\ plot_labels (trace r) = label_at legend_labels <$> range (length pre)
  /\ (forall series fx,
        Forall2 (fun file xy => file_series w prop species file xy.1 xy.2)
          pre series ->
        factor w kwargs "xfactor" = inr fx ->
        plotted_arrays (trace r)
        = (fun xy => (Some (scaled fx xy.1), xy.2)) <$> series).
Proof.
  intros files Hacc Hpre Hf r.
  destruct (in_files_loop_raises w pre f post prop species legend_labels
              kwargs e Hacc Hpre Hf) as [Hbefore Hloop].
  fold files in Hbefore, Hloop.
  assert (Hr : r = (SetPlotParams Plt kwargs :: Figure ::
                    (range (length pre) ≫=
                       (fun j => trace (in_files_body w files prop species
                                          legend_labels kwargs j)))
                    ++ trace (series_in_file w prop species kwargs f),
                    inl e)).
  { subst r. unfold plot_mass_fraction_vs_property_in_files.
    rewrite (labels_accepted_check _ _ Hacc).
    rewrite !bind_emit. cbn [outcome trace fst snd].
    by rewrite Hloop. }
  split; [by rewrite Hr|]. split; [|split; [by rewrite Hr; right; left|]].
  { subst r. unfold plot_mass_fraction_vs_property_in_files.
    rewrite (labels_accepted_check _ _ Hacc).
    rewrite !bind_emit, Hloop. cbn [trace fst].
    do 2 (apply Forall_cons_2; [done|]). apply Forall_app. split.
    - apply Forall_bind, Forall_forall. intros j _.
      eapply Forall_impl; [apply in_files_body_events|]. by intros [].
    - unfold series_in_file, scale. trace_events. }
  rewrite Hr. cbn [trace fst]. split.
  - change (SetPlotParams Plt kwargs :: Figure :: ?t)
      with ([SetPlotParams Plt kwargs; Figure] ++ t).
    rewrite !plot_labels_app.
    rewrite (plot_labels_no_plot (trace (series_in_file _ _ _ _ _)))
      by apply series_in_file_no_plot.
    cbn [plot_labels plotted omap fmap list_fmap app]. rewrite app_nil_r.
    apply plot_labels_iterations.
    intros j Hj. by apply in_files_body_plot_labels, Hbefore.
  - intros series fx Hall Hfx.
    change (SetPlotParams Plt kwargs :: Figure :: ?t)
      with ([SetPlotParams Plt kwargs; Figure] ++ t).
    rewrite !plotted_arrays_app.
    rewrite (plotted_arrays_no_plot (trace (series_in_file _ _ _ _ _)))
      by apply series_in_file_no_plot.
    cbn [plotted_arrays plotted omap fmap list_fmap app]. rewrite app_nil_r.
    rewrite (Forall2_length _ _ _ Hall) in Hbefore |- *.
    apply in_files_iterations_plotted; [exact Hbefore| |exact Hfx].
    intros i xy Hxy.
    destruct (Forall2_lookup_r _ _ _ _ _ Hall Hxy) as (file & Hfile & Hfs).
    exists file. split; [|done]. unfold files. by apply lookup_app_l_Some.
Qed.

Lemma in_files_stops_at_failing_file_witness :
  let r := plot_mass_fraction_vs_property_in_files
             Demo.world (["a.xml"; "b.xml"] ++ "missing.xml" :: ["c.xml"])
             "time" "o16" (Some ["a"; "b"; "m"; "c"])
             {[ "xfactor" := PyInt 2 ]} in
  outcome r = inl (ReaderError "missing.xml")
  /\ plot_labels (trace r) = [Some "a"; Some "b"]
  /\ plotted_arrays (trace r)
     = [(Some [0.5%float; 1%float], [0.125%float; 0.5%float]);
        (Some [0.5%float; 1%float], [0.125%float; 0.5%float])].
Proof.
  intros r.
  destruct (in_files_stops_at_failing_file
              Demo.world ["a.xml"; "b.xml"] "missing.xml" ["c.xml"]
              "time" "o16" (Some ["a"; "b"; "m"; "c"])
              {[ "xfactor" := PyInt 2 ]}
              (ReaderError "missing.xml")) as (H1 & _ & _ & H2 & H3).
  - by intros _.
  - repeat constructor; eexists; (split; [by vm_compute|reflexivity]).
  - by vm_compute.
  - split; [exact H1|]. split; [exact H2|].
    refine (H3 [([1%float; 2%float], [0.125%float; 0.5%float]);
                ([1%float; 2%float], [0.125%float; 0.5%float])]
               (Some 2%float) _ _); [|by vm_compute].
    repeat constructor;
      exists (Demo.props "a.xml"), (Demo.fractions "a.xml");
      repeat split; by vm_compute.
Defined.

(** The second file cannot be read; the first one has been plotted by
    then. *)
Lemma in_files_plots_before_failing_file :
  get_properties_in_zones_as_floats Demo.world "missing.xml" ["time"]
    = inl (ReaderError "missing.xml")
  /\ plot_mass_fraction_vs_property_in_files
       Demo.world ["a.xml"; "missing.xml"] "time" "o16" None ∅
     = ([SetPlotParams Plt ∅; Figure;
         GetProperties "a.xml" ["time"]; GetMassFractions "a.xml" ["o16"];
         Plot (Some [1%float; 2%float]) [0.125%float; 0.5%float] None;
         GetProperties "missing.xml" ["time"]],
        inl (ReaderError "missing.xml")).
Proof. split; by vm_compute. Qed.

(** ** The series of a complete overlay *)

(** When the reader has both series of every file and they have one
    length, the overlay returns and has plotted them. *)
Lemma in_files_run_when_readable
    w files series prop species legend_labels kwargs fx :
  labels_accepted files legend_labels ->
  Forall2 (fun file xy => file_series w prop species file xy.1 xy.2)
    files series ->
  Forall (fun xy => length xy.1 = length xy.2) series ->
  factor w kwargs "xfactor" = inr fx ->
  outcome (in_files_ylabel w species kwargs) = inr tt ->
  let r := plot_mass_fraction_vs_property_in_files
             w files prop species legend_labels kwargs in
  outcome r = inr tt
  /\ plotted_arrays (trace r)
     = (fun xy => (Some (scaled fx xy.1), xy.2)) <$> series.
Proof.
  intros Hacc Hall Hlen Hfx Hy r.
  assert (Hr : outcome r = inr tt).
  { apply in_files_returns_when_readable; [done| |done].
    by eapply file_series_readable. }
  split; [done|]. subst r.
  destruct (in_files_returns w files prop species legend_labels kwargs Hacc Hr)
    as [Hloop ->].
  rewrite !plotted_arrays_app.
  rewrite (plotted_arrays_no_plot (trace (in_files_ylabel _ _ _))).
  2:{ eapply Forall_impl; [apply in_files_ylabel_events|]. by intros []. }
  rewrite (plotted_arrays_no_plot (if truthy legend_labels then _ else _))
    by (destruct (truthy legend_labels); by repeat constructor).
  cbn [plotted_arrays plotted omap fmap list_fmap app].
  rewrite app_nil_r, (for_in_trace _ _ Hloop).
  rewrite (Forall2_length _ _ _ Hall) in Hloop |- *.
  apply in_files_iterations_plotted; [by apply for_in_returns| |exact Hfx].
  intros i xy Hxy.
  destruct (Forall2_lookup_r _ _ _ _ _ Hall Hxy) as (file & Hfile & Hfs).
  by exists file.
Qed.

(** C10: an empty list of labels is the same call as no list at all.  The
    length check is skipped, no diagnostic is printed, the first file is
    fetched, and no legend is requested.  A run that returned drew one
    series per file, each without a label; and when the reader has the
    series of every file the run returns and the series drawn are the
    reader's. *)
Theorem in_files_empty_labels_as_none w files prop species kwargs :
  let r := plot_mass_fraction_vs_property_in_files
             w files prop species (Some []) kwargs in
  r = plot_mass_fraction_vs_property_in_files w files prop species None kwargs
  /\ Forall (fun e => e ≠ Legend /\ forall msg, e ≠ Print msg) (trace r)
  /\ (forall file, head files = Some file ->
        GetProperties file [prop] ∈ trace r)
  /\ (outcome r = inr tt ->
      plot_labels (trace r) = replicate (length files) None)
  /\ (forall series fx,
        Forall2 (fun file xy => file_series w prop species file xy.1 xy.2)
          files series ->
        Forall (fun xy => length xy.1 = length xy.2) series ->
        factor w kwargs "xfactor" = inr fx ->
        outcome (in_files_ylabel w species kwargs) = inr tt ->
        outcome r = inr tt
        /\ plotted_arrays (trace r)
           = (fun xy => (Some (scaled fx xy.1), xy.2)) <$> series).
Proof.
  intros r. split; [reflexivity|]. split; [|split; [|split]].
  - by apply in_files_no_legend_without_labels.
  - intros file Hfile. destruct files as [|f files]; [done|].
    injection Hfile as ->. subst r.
    unfold plot_mass_fraction_vs_property_in_files, range.
    cbn [truthy andb length seq for_in].
    rewrite bind_emit. cbn [trace fst]. rewrite bind_emit. cbn [trace fst].
    right. right. rewrite !trace_bind. apply elem_of_app. left.
    apply elem_of_app. left. unfold in_files_body.
    cbn [index lookup list_lookup]. rewrite bind_lift_inr.
    unfold series_in_file. rewrite !trace_bind. apply elem_of_app. left.
    apply elem_of_app. left. by left.
  - intros H. subst r.
    rewrite in_files_plot_labels by (done || by intros ?).
    rewrite (const_fmap _ _ None) by done.
    unfold range. by rewrite length_seq.
  - intros series fx Hall Hlen Hfx Hy.
    by apply in_files_run_when_readable; [intros ?|..].
Qed.

Lemma in_files_empty_labels_as_none_witness :
  let r := plot_mass_fraction_vs_property_in_files
             Demo.world ["a.xml"; "b.xml"] "time" "o16" (Some []) ∅ in
  GetProperties "a.xml" ["time"] ∈ trace r
  /\ plot_labels (trace r) = [None; None]
  /\ outcome r = inr tt
  /\ plotted_arrays (trace r)
     = [(Some [1%float; 2%float], [0.125%float; 0.5%float]);
        (Some [1%float; 2%float], [0.125%float; 0.5%float])].
Proof.
  intros r.
  pose proof (in_files_empty_labels_as_none
                Demo.world ["a.xml"; "b.xml"] "time" "o16" ∅)
    as (_ & _ & Ha & Hb & Hc).
  split; [|split].
  - refine (Ha "a.xml" _). reflexivity.
  - refine (eq_trans (Hb _) _); by vm_compute.
  - refine (Hc [([1%float; 2%float], [0.125%float; 0.5%float]);
                ([1%float; 2%float], [0.125%float; 0.5%float])] None _ _ _ _).
    + repeat constructor;
        exists (Demo.props "a.xml"), (Demo.fractions "a.xml");
        repeat split; by vm_compute.
    + by repeat constructor.
    + by vm_compute.
    + by vm_compute.
Defined.

(** X2: when the reader has both series of every file and they have one
    length, the factor (if any) converts, and the y label can be set, the
    overlay returns, and the series it handed to [plt.plot] are, in file
    order, the property of each file divided by [xfactor] against the mass
    fraction of the species exactly as the reader returned it. *)
Theorem in_files_plots_every_file
    w files series prop species legend_labels kwargs fx :
  labels_accepted files legend_labels ->
  Forall2 (fun file xy => file_series w prop species file xy.1 xy.2)
    files series ->
  Forall (fun xy => length xy.1 = length xy.2) series ->
  factor w kwargs "xfactor" = inr fx ->
  outcome (in_files_ylabel w species kwargs) = inr tt ->
  let r := plot_mass_fraction_vs_property_in_files
             w files prop species legend_labels kwargs in
  outcome r = inr tt
  /\ plotted_arrays (trace r)
     = (fun xy => (Some (scaled fx xy.1), xy.2)) <$> series.
Proof. apply in_files_run_when_readable. Qed.

Lemma in_files_plots_every_file_witness :
  plotted_arrays
    (trace (plot_mass_fraction_vs_property_in_files
              Demo.world ["a.xml"; "b.xml"] "time" "o16" None
              {[ "xfactor" := PyInt 2 ]}))
  = [(Some [0.5%float; 1%float], [0.125%float; 0.5%float]);
     (Some [0.5%float; 1%float], [0.125%float; 0.5%float])].
Proof.
  refine (proj2 (in_files_plots_every_file
                   Demo.world ["a.xml"; "b.xml"]
                   [([1%float; 2%float], [0.125%float; 0.5%float]);
                    ([1%float; 2%float], [0.125%float; 0.5%float])]
                   "time" "o16" None {[ "xfactor" := PyInt 2 ]}
                   (Some 2%float) _ _ _ _ _)).
  - by intros ?.
  - repeat constructor;
      exists (Demo.props "a.xml"), (Demo.fractions "a.xml");
      repeat split; by vm_compute.
  - by repeat constructor.
  - by vm_compute.
  - by vm_compute.
Defined.

(** ** The single-file plots: what is plotted *)

Lemma species_body_plotted species latex_names x y i :
  outcome (species_body species latex_names x y i) = inr tt ->
  plotted (trace (species_body species latex_names x y i))
  = [(x, y !!! (species !!! i), label_of latex_names (species !!! i))].
Proof.
  unfold species_body, species_label, index, label_of, latex_getitem, getitem.
  destruct (species !! i) as [s|] eqn:Hs.
  - rewrite (range_lookup_total _ _ _ Hs), (lookup_total_alt y s).
    destruct latex_names as [|d]; cbn [len_latex].
    + rewrite bool_decide_false by lia. rewrite !bind_lift_inr.
      by destruct (y !! s).
    + destruct (bool_decide (size d ≠ 0)); rewrite !bind_lift_inr.
      * destruct (d !! s) eqn:Hd; [|done]. rewrite !bind_lift_inr.
        by destruct (y !! s).
      * by destruct (y !! s).
  - destruct (bool_decide (len_latex latex_names ≠ 0)); by rewrite ?bind_lift_inr.
Qed.

Lemma species_loop_plotted species latex_names x y :
  let loop := for_in (range (length species))
                (species_body species latex_names x y) in
  outcome loop = inr tt ->
  plotted (trace loop)
  = (fun s => (x, y !!! s, label_of latex_names s)) <$> species.
Proof.
  intros loop Hloop. subst loop. rewrite (for_in_trace _ _ Hloop).
  rewrite (plotted_iterations _ _
             (fun i => (x, y !!! (species !!! i),
                        label_of latex_names (species !!! i)))).
  - transitivity ((fun s => (x, y !!! s, label_of latex_names s))
                    <$> ((fun i => species !!! i) <$> range (length species))).
    + by rewrite <-list_fmap_compose.
    + by rewrite lookup_total_range.
  - intros i Hi. apply species_body_plotted.
    by apply (proj1 (for_in_returns _ _) Hloop).
Qed.

(** X3: a call of [plot_mass_fractions] that returned handed to [plt.plot]
    one series per requested species, in the order of the list and with
    no abscissa: the mass fractions of that species, as the one call to
    the reader returned them. *)
Theorem plot_mass_fractions_plots_every_species w file species kwargs y :
  get_mass_fractions_in_zones w file species = inr y ->
  let r := plot_mass_fractions w file species kwargs in
  outcome r = inr tt ->
  plotted_arrays (trace r) = (fun s => (None, y !!! s)) <$> species.
Proof.
  intros Hy r H. subst r.
  apply plot_mass_fractions_returns in H as (y' & t & Hy' & _ & Hloop & ->).
  rewrite Hy in Hy'. injection Hy' as <-.
  rewrite !plotted_arrays_app.
  rewrite (plotted_arrays_no_plot (trace (fetch_latex_names _ _ _))).
  2:{ eapply Forall_impl; [apply fetch_latex_names_events|]. by intros ? ->. }
  rewrite (plotted_arrays_no_plot (trace (default_ylabel _ _ _))).
  2:{ eapply Forall_impl; [apply default_ylabel_events|]. by intros []. }
  rewrite (plotted_arrays_no_plot (if kwargs !! "xlabel" is None then _ else _))
    by (destruct (kwargs !! "xlabel"); by repeat constructor).
  unfold plotted_arrays. rewrite (species_loop_plotted _ _ _ _ Hloop).
  cbn [plotted omap fmap list_fmap app]. rewrite !app_nil_r.
  by rewrite <-list_fmap_compose.
Qed.

Lemma plot_mass_fractions_plots_every_species_witness :
  plotted_arrays (trace (plot_mass_fractions
                           Demo.world "a.xml" ["o16"; "c12"; "o16"] ∅))
  = [(None, [0.125%float; 0.5%float]); (None, [0.5%float; 0.25%float]);
     (None, [0.125%float; 0.5%float])].
Proof.
  refine (eq_trans (plot_mass_fractions_plots_every_species
                      Demo.world "a.xml" ["o16"; "c12"; "o16"] ∅
                      (Demo.fractions "a.xml") _ _) _);
    by vm_compute.
Defined.

(** X4: a call of [plot_mass_fractions_vs_property] that returned plotted
    every requested species, in the order of the list, against one and the
    same abscissa: the property of the file, divided once by [xfactor]. *)
Theorem plot_mass_fractions_vs_property_plots_every_species
    w file prop species kwargs d x fx y :
  get_properties_in_zones_as_floats w file [prop] = inr d ->
  d !! prop = Some x ->
  factor w kwargs "xfactor" = inr fx ->
  get_mass_fractions_in_zones w file species = inr y ->
  let r := plot_mass_fractions_vs_property w file prop species kwargs in
  outcome r = inr tt ->
  plotted_arrays (trace r)
  = (fun s => (Some (scaled fx x), y !!! s)) <$> species.
Proof.
  intros Hd Hx Hfx Hy r. subst r. unfold plot_mass_fractions_vs_property.
  rewrite !bind_emit, Hd, bind_call_inr. cbn [outcome trace fst snd].
  unfold getitem. rewrite Hx, bind_lift_inr.
  rewrite (scale_factor _ _ _ _ _ Hfx), bind_nil_inr.
  rewrite Hy, bind_call_inr. cbn [outcome trace fst snd]. intros H.
  apply bind_returns in H as (t & Ht & H & ->).
  apply bind_returns in H as ([] & Hloop & H & ->).
  apply bind_returns in H as ([] & _ & H & ->).
  rewrite !plotted_arrays_cons_other by done.
  rewrite !plotted_arrays_app.
  rewrite (plotted_arrays_no_plot (trace (fetch_latex_names _ _ _))).
  2:{ eapply Forall_impl; [apply fetch_latex_names_events|]. by intros ? ->. }
  rewrite (plotted_arrays_no_plot (trace (default_ylabel _ _ _))).
  2:{ eapply Forall_impl; [apply default_ylabel_events|]. by intros []. }
  match goal with
  | |- context [plotted_arrays (trace (?a ≫= ?f))] =>
      rewrite (plotted_arrays_no_plot (trace (a ≫= f)))
        by (case_bool_decide; destruct (kwargs !! "xlabel");
            simpl; by repeat constructor)
  end.
  unfold plotted_arrays. rewrite (species_loop_plotted _ _ _ _ Hloop).
  rewrite !app_nil_r. by rewrite <-list_fmap_compose.
Qed.

Lemma plot_mass_fractions_vs_property_plots_every_species_witness :
  plotted_arrays (trace (plot_mass_fractions_vs_property
                           Demo.world "a.xml" "time" ["c12"; "o16"]
                           {[ "xfactor" := PyInt 2 ]}))
  = [(Some [0.5%float; 1%float], [0.5%float; 0.25%float]);
     (Some [0.5%float; 1%float], [0.125%float; 0.5%float])].
Proof.
  refine (eq_trans (plot_mass_fractions_vs_property_plots_every_species
                      Demo.world "a.xml" "time" ["c12"; "o16"]
                      {[ "xfactor" := PyInt 2 ]}
                      (Demo.props "a.xml") [1%float; 2%float] (Some 2%float)
                      (Demo.fractions "a.xml") _ _ _ _ _) _);
    by vm_compute.
Defined.

(** ** A species the reader did not return *)

Lemma species_body_ok species x y i s :
  species !! i = Some s ->
  plottable_species x y s ->
  outcome (species_body species NoNames x y i) = inr tt.
Proof.
  intros Hs (ys & Hys & Hlen).
  unfold species_body, species_label, index, getitem. cbn [len_latex].
  rewrite bool_decide_false by lia.
  by rewrite Hs, !bind_lift_inr, Hys, bind_lift_inr, plt_plot_ok.
Qed.

Lemma species_body_missing species x y i s :
  species !! i = Some s ->
  y !! s = None ->
  species_body species NoNames x y i = ([], inl (KeyError s)).
Proof.
  intros Hs Hys.
  unfold species_body, species_label, index, getitem. cbn [len_latex].
  rewrite bool_decide_false by lia.
  by rewrite Hs, !bind_lift_inr, Hys.
Qed.

(** The loop over the species stops at the first species that is missing
    from the reader's answer, after it plotted the ones before it. *)
Lemma species_loop_missing pre s post x y :
  let species := pre ++ s :: post in
  Forall (plottable_species x y) pre ->
  y !! s = None ->
  let loop := for_in (range (length species))
                (species_body species NoNames x y) in
  outcome loop = inl (KeyError s)
  /\ plot_labels (trace loop) = Some <$> pre.
Proof.
  intros species Hpre Hs loop.
  assert (Hbefore : forall j, j ∈ seq 0 (length pre) ->
            outcome (species_body species NoNames x y j) = inr tt).
  { intros j Hj. apply elem_of_seq in Hj as [_ Hj]. simpl in Hj.
    destruct (lookup_lt_is_Some_2 pre j Hj) as [s' Hs'].
    eapply species_body_ok.
    - unfold species. by rewrite lookup_app_l.
    - exact (Forall_lookup_1 _ _ _ _ Hpre Hs'). }
  assert (Hat : species_body species NoNames x y (length pre)
                = ([], inl (KeyError s))).
  { apply species_body_missing; [|done].
    unfold species. by rewrite list_lookup_middle. }
  assert (Hloop : loop =
            ((seq 0 (length pre) ≫=
               (fun j => trace (species_body species NoNames x y j))) ++ [],
             inl (KeyError s))).
  { subst loop. unfold range, species at 1.
    rewrite length_app. simpl length. rewrite seq_app. simpl seq.
    erewrite for_in_raises; [|exact Hbefore|by rewrite Hat].
    by rewrite Hat. }
  rewrite Hloop. split; [done|]. cbn [trace fst]. rewrite app_nil_r.
  rewrite (plot_labels_iterations _ _ (fun j => pre !! j)).
  - apply lookup_range.
  - intros j Hj. rewrite species_body_plot_labels by by apply Hbefore.
    apply elem_of_seq in Hj as [_ Hj]. simpl in Hj.
    destruct (lookup_lt_is_Some_2 pre j Hj) as [s' Hs'].
    unfold species. by rewrite lookup_app_l, Hs' by done.
Qed.

(** X5: with latex names off, when the reader's answer lacks one of the
    requested species, [plot_mass_fractions] raises [KeyError] for the
    first such species.  The species before it in the list have been
    plotted by then, under their raw names; no axis label is set,
    [apply_class_methods] is not called and the chart is not shown. *)
Theorem plot_mass_fractions_missing_species w file pre s post kwargs y :
  use_latex_names kwargs = false ->
  get_mass_fractions_in_zones w file (pre ++ s :: post) = inr y ->
  Forall (fun s' => is_Some (y !! s')) pre ->
  y !! s = None ->
  let r := plot_mass_fractions w file (pre ++ s :: post) kwargs in
  outcome r = inl (KeyError s)
  /\ plot_labels (trace r) = Some <$> pre
  /\ Forall (fun ev => match ev with
                       | Ylabel _ | Xlabel _ | ApplyClassMethods _ | Show => False
                       | _ => True
                       end) (trace r).
Proof.
  intros Hoff Hy Hpre Hs r.
  destruct (species_loop_missing pre s post None y
              (plottable_without_abscissa _ _ Hpre) Hs) as [Hout Hlab].
  assert (Hr : r = (SetPlotParams Mpl kwargs :: Figure
                    :: GetMassFractions file (pre ++ s :: post)
                    :: trace (for_in (range (length (pre ++ s :: post)))
                                (species_body (pre ++ s :: post) NoNames None y)),
                    inl (KeyError s))).
  { subst r. unfold plot_mass_fractions.
    rewrite !bind_emit, Hy, bind_call_inr. cbn [outcome trace fst snd].
    rewrite (fetch_latex_names_off _ _ _ Hoff), bind_ret.
    by rewrite (bind_inl _ _ _ Hout). }
  rewrite Hr. cbn [outcome trace fst snd]. split; [done|]. split.
  - exact Hlab.
  - do 3 (apply Forall_cons_2; [done|]).
    eapply Forall_impl; [apply species_loop_events|]. by intros [].
Qed.

Lemma plot_mass_fractions_missing_species_witness :
  let r := plot_mass_fractions Demo.world "a.xml"
             (["c12"] ++ "fe56" :: ["o16"]) ∅ in
  outcome r = inl (KeyError "fe56") /\ plot_labels (trace r) = [Some "c12"].
Proof.
  intros r.
  destruct (plot_mass_fractions_missing_species
              Demo.world "a.xml" ["c12"] "fe56" ["o16"] ∅
              (Demo.fractions "a.xml")) as (H1 & H2 & _).
  - by vm_compute.
  - by vm_compute.
  - constructor; [|constructor]. eexists. vm_compute. reflexivity.
  - by vm_compute.
  - split; [exact H1 | exact H2].
Defined.

(** ** A failure of the name resolver *)

(** X6: in the two single-file plots of several species the resolver is
    asked before anything is plotted: when latex names are on and the
    resolver raises, the exception reaches the caller and no series has
    been handed to [plt.plot]. *)
Theorem resolver_failure_before_plots
    w file prop species kwargs d x fx y e :
  use_latex_names kwargs = true ->
  get_latex_names w species = inl e ->
  get_mass_fractions_in_zones w file species = inr y ->
  plot_mass_fractions w file species kwargs
  = ([SetPlotParams Mpl kwargs; Figure; GetMassFractions file species;
      GetLatexNames species], inl e)
  /\ (get_properties_in_zones_as_floats w file [prop] = inr d ->
      d !! prop = Some x ->
      factor w kwargs "xfactor" = inr fx ->
      plot_mass_fractions_vs_property w file prop species kwargs
      = ([SetPlotParams Mpl kwargs; Figure; GetProperties file [prop];
          GetMassFractions file species; GetLatexNames species], inl e)).
Proof.
  intros Hon He Hy. split.
  - unfold plot_mass_fractions, fetch_latex_names.
    by rewrite !bind_emit, Hy, bind_call_inr, Hon, He.
  - intros Hd Hx Hfx.
    unfold plot_mass_fractions_vs_property, fetch_latex_names, getitem.
    rewrite !bind_emit, Hd, bind_call_inr, Hx, bind_lift_inr.
    rewrite (scale_factor _ _ _ _ _ Hfx), bind_nil_inr.
    by rewrite Hy, bind_call_inr, Hon, He.
Qed.

Lemma resolver_failure_before_plots_witness :
  let yes : kwargs_t := {[ "use_latex_names" := PyStr "yes" ]} in
  plotted (trace (plot_mass_fractions Demo.nameless "a.xml" ["c12"] yes)) = []
  /\ plotted (trace (plot_mass_fractions_vs_property
                       Demo.nameless "a.xml" "time" ["c12"] yes)) = [].
Proof.
  intros yes.
  destruct (resolver_failure_before_plots
              Demo.nameless "a.xml" "time" ["c12"] yes (Demo.props "a.xml")
              [1%float; 2%float] None (Demo.fractions "a.xml")
              (NameError "no latex names")) as [H1 H2];
    [by vm_compute..|].
  split.
  - by rewrite H1.
  - rewrite H2; by vm_compute.
Defined.

Lemma in_files_loop_returns w files prop species legend_labels kwargs :
  labels_accepted files legend_labels ->
  Forall (plottable_file w prop species kwargs) files ->
  outcome (for_in (range (length files))
             (in_files_body w files prop species legend_labels kwargs)) = inr tt.
Proof.
  intros Hacc Hfiles. apply for_in_returns. intros i Hi.
  apply elem_of_seq in Hi as [_ Hi]. simpl in Hi.
  destruct (lookup_lt_is_Some_2 files i Hi) as [file Hfile].
  destruct (Forall_lookup_1 _ _ _ _ Hfiles Hfile) as (xy & Hxy & Hlen).
  eapply in_files_body_ok; [exact Hfile|exact Hxy|exact Hlen|].
  intros Ht. apply lookup_lt_is_Some_2. by rewrite (Hacc Ht).
Qed.

(** X7: in the overlay of several files the resolver is asked last: when
    latex names are on and the resolver raises, every file has already
    been fetched and plotted and [apply_class_methods] has been called.
    The reader was asked twice per file, in file order; the series handed
    to [plt.plot] are, in file order, what the reader has for each file,
    the property divided by [xfactor], each under the label of its index.
    The exception reaches the caller; no y label is set, no legend is
    requested and the chart is not shown. *)
Theorem in_files_resolver_failure_after_plots
    w files series prop species legend_labels kwargs fx e :
  labels_accepted files legend_labels ->
  Forall2 (fun file xy => file_series w prop species file xy.1 xy.2)
    files series ->
  Forall (fun xy => length xy.1 = length xy.2) series ->
  factor w kwargs "xfactor" = inr fx ->
  use_latex_names kwargs = true ->
  get_latex_names w [species] = inl e ->
  let r := plot_mass_fraction_vs_property_in_files
             w files prop species legend_labels kwargs in
  outcome r = inl e
  /\ List.filter is_data_call (trace r)
     = files ≫= (fun file => [GetProperties file [prop];
                              GetMassFractions file [species]])
  /\ plotted_arrays (trace r)
     = (fun xy => (Some (scaled fx xy.1), xy.2)) <$> series
  /\ plot_labels (trace r) = label_at legend_labels <$> range (length files)
  /\ (exists before,
        trace r = before ++ [ApplyClassMethods kwargs; GetLatexNames [species]])
  /\ Forall (fun ev => match ev with
                       | Ylabel _ | Legend | Show => False
                       | _ => True
                       end) (trace r).
Proof.
  intros Hacc Hall Hlen Hfx Hon He r.
  pose proof (file_series_readable _ _ _ _ _ _ _ Hall Hfx Hlen) as Hfiles.
  pose proof (in_files_loop_returns w files prop species legend_labels kwargs
                Hacc Hfiles) as Hloop.
  assert (Hr : r = ([SetPlotParams Plt kwargs; Figure]
                    ++ trace (for_in (range (length files))
                                (in_files_body w files prop species
                                   legend_labels kwargs))
                    ++ [ApplyClassMethods kwargs; GetLatexNames [species]],
                    inl e)).
  { subst r. unfold plot_mass_fraction_vs_property_in_files, in_files_ylabel.
    rewrite (labels_accepted_check _ _ Hacc), Hon, He.
    rewrite !bind_emit. cbn [outcome trace fst snd app].
    by rewrite (bind_inr _ _ tt Hloop). }
  rewrite Hr. cbn [outcome trace fst snd]. split; [done|].
  split; [|split; [|split; [|split]]].
  - rewrite !List.filter_app. cbn [List.filter is_data_call app].
    rewrite app_nil_r, (for_in_trace _ _ Hloop), filter_bind_list.
    rewrite (bind_list_ext_in _
               (fun i => [GetProperties (files !!! i) [prop];
                          GetMassFractions (files !!! i) [species]])).
    + rewrite <-(bind_fmap_list (fun i => files !!! i)
                   (fun file => [GetProperties file [prop];
                                 GetMassFractions file [species]])).
      by rewrite lookup_total_range.
    + intros i Hi. apply in_files_body_data_calls.
      by apply (proj1 (for_in_returns _ _) Hloop).
  - rewrite !plotted_arrays_app.
    cbn [plotted_arrays plotted omap fmap list_fmap app].
    rewrite app_nil_r, (for_in_trace _ _ Hloop).
    rewrite (Forall2_length _ _ _ Hall) in Hloop |- *.
    apply in_files_iterations_plotted; [by apply for_in_returns| |exact Hfx].
    intros i xy Hxy.
    destruct (Forall2_lookup_r _ _ _ _ _ Hall Hxy) as (file & Hfile & Hfs).
    by exists file.
  - rewrite !plot_labels_app. cbn [plot_labels plotted omap fmap list_fmap app].
    rewrite app_nil_r, (for_in_trace _ _ Hloop).
    apply plot_labels_iterations. intros i Hi.
    apply in_files_body_plot_labels.
    by apply (proj1 (for_in_returns _ _) Hloop).
  - eexists. by rewrite app_assoc.
  - rewrite !Forall_app. split; [by repeat constructor|].
    split; [|by repeat constructor].
    apply for_in_Forall. intros i _.
    eapply Forall_impl; [apply in_files_body_events|]. by intros [].
Qed.

Lemma in_files_resolver_failure_after_plots_witness :
  let r := plot_mass_fraction_vs_property_in_files
             Demo.nameless ["a.xml"; "b.xml"] "time" "o16"
             (Some ["a"; "b"]) {[ "use_latex_names" := PyStr "yes" ]} in
  outcome r = inl (NameError "no latex names")
  /\ List.filter is_data_call (trace r)
     = [GetProperties "a.xml" ["time"]; GetMassFractions "a.xml" ["o16"];
        GetProperties "b.xml" ["time"]; GetMassFractions "b.xml" ["o16"]]
  /\ plotted_arrays (trace r)
     = [(Some [1%float; 2%float], [0.125%float; 0.5%float]);
        (Some [1%float; 2%float], [0.125%float; 0.5%float])]
  /\ plot_labels (trace r) = [Some "a"; Some "b"].
Proof.
  intros r.
  destruct (in_files_resolver_failure_after_plots
              Demo.nameless ["a.xml"; "b.xml"]
              [([1%float; 2%float], [0.125%float; 0.5%float]);
               ([1%float; 2%float], [0.125%float; 0.5%float])]
              "time" "o16" (Some ["a"; "b"])
              {[ "use_latex_names" := PyStr "yes" ]} None
              (NameError "no latex names")) as (H1 & H2 & H3 & H4 & _).
  - by intros _.
  - repeat constructor;
      exists (Demo.props "a.xml"), (Demo.fractions "a.xml");
      repeat split; by vm_compute.
  - by repeat constructor.
  - by vm_compute.
  - by vm_compute.
  - by vm_compute.
  - split; [exact H1|]. split; [exact H2|]. split; [exact H3 | exact H4].
Defined.

(** X8: with latex names on, the overlay sets the y label
    [X(<latex name>)] after [apply_class_methods] has been called, so
    this label is the one that stands, also when [kwargs] carries a
    [ylabel] of its own. *)
Theorem in_files_latex_ylabel_last
    w files prop species legend_labels kwargs d name :
  labels_accepted files legend_labels ->
  use_latex_names kwargs = true ->
  get_latex_names w [species] = inr d ->
  d !! species = Some name ->
  let r := plot_mass_fraction_vs_property_in_files
             w files prop species legend_labels kwargs in
  outcome r = inr tt ->
  ylabels (trace r) = ["X(" +:+ name +:+ ")"]
  /\ exists before,
       trace r = before
                 ++ [ApplyClassMethods kwargs; GetLatexNames [species];
                     Ylabel ("X(" +:+ name +:+ ")")]
                 ++ (if truthy legend_labels then [Legend] else [])
                 ++ [Show]
       /\ ylabels before = [].
Proof.
  intros Hacc Hon Hd Hname r Hr. subst r.
  destruct (in_files_returns w files prop species legend_labels kwargs Hacc Hr)
    as [Hloop ->].
  assert (Hy : in_files_ylabel w species kwargs
               = ([GetLatexNames [species]; Ylabel ("X(" +:+ name +:+ ")")],
                  inr tt)).
  { unfold in_files_ylabel, getitem.
    by rewrite Hon, Hd, bind_call_inr, Hname, bind_lift_inr. }
  rewrite Hy. cbn [trace fst].
  assert (Hbefore : ylabels ([SetPlotParams Plt kwargs; Figure]
                             ++ trace (for_in (range (length files))
                                         (in_files_body w files prop species
                                            legend_labels kwargs))) = []).
  { apply ylabels_no_ylabel. apply Forall_app. split; [by repeat constructor|].
    apply for_in_Forall. intros i _.
    eapply Forall_impl; [apply in_files_body_events|]. by intros []. }
  split.
  - rewrite app_assoc, ylabels_app, Hbefore.
    by destruct (truthy legend_labels).
  - eexists. split; [|exact Hbefore]. by rewrite <-!app_assoc.
Qed.

Lemma in_files_latex_ylabel_last_witness :
  ylabels (trace (plot_mass_fraction_vs_property_in_files
                    Demo.world ["a.xml"] "time" "o16" None
                    {[ "use_latex_names" := PyStr "yes";
                       "ylabel" := PyStr "mine" ]}))
  = ["X($^{16}\rm{O}$)"].
Proof.
  refine (proj1 (in_files_latex_ylabel_last
                   Demo.world ["a.xml"] "time" "o16" None
                   {[ "use_latex_names" := PyStr "yes";
                      "ylabel" := PyStr "mine" ]}
                   Demo.latex "$^{16}\rm{O}$" _ _ _ _ _));
    by vm_compute.
Defined.

(** ** Axis labels from [kwargs] *)

Lemma xlabels_app t1 t2 : xlabels (t1 ++ t2) = xlabels t1 ++ xlabels t2.
Proof. apply omap_app. Qed.

Lemma xlabels_no_xlabel t :
  Forall (fun e => match e with Xlabel _ => False | _ => True end) t ->
  xlabels t = [].
Proof.
  intros H. apply omap_Forall_None.
  eapply Forall_impl; [exact H|]. by intros [].
Qed.

(** X9: a [ylabel] in [kwargs] switches the computed y label off: neither
    of the two single-file plots of several species calls [plt.ylabel],
    whatever the reader and the resolver do. *)
Theorem ylabel_in_kwargs_suppresses_default w file prop species kwargs v :
  kwargs !! "ylabel" = Some v ->
  ylabels (trace (plot_mass_fractions w file species kwargs)) = []
  /\ ylabels (trace (plot_mass_fractions_vs_property w file prop species kwargs))
     = [].
Proof.
  intros Hv. split; apply ylabels_no_ylabel.
  - unfold plot_mass_fractions, fetch_latex_names, species_body,
      species_label, default_ylabel.
    rewrite Hv. trace_events.
  - unfold plot_mass_fractions_vs_property, fetch_latex_names, species_body,
      species_label, default_ylabel, scale.
    rewrite Hv. trace_events.
Qed.

Lemma ylabel_in_kwargs_suppresses_default_witness :
  ylabels (trace (plot_mass_fractions Demo.world "a.xml" ["c12"]
                    {[ "ylabel" := PyStr "mass fraction of carbon" ]})) = [].
Proof.
  refine (proj1 (ylabel_in_kwargs_suppresses_default
                   Demo.world "a.xml" "time" ["c12"]
                   {[ "ylabel" := PyStr "mass fraction of carbon" ]}
                   (PyStr "mass fraction of carbon") _)).
  by vm_compute.
Defined.

(** X10: the x axis of a single-file plot of several species that
    returned is labelled by this layer exactly when [kwargs] has no
    [xlabel]: with ['step'] by [plot_mass_fractions], with the name of the
    property by [plot_mass_fractions_vs_property]. *)
Theorem default_xlabel w file prop species kwargs :
  let r2 := plot_mass_fractions w file species kwargs in
  let r3 := plot_mass_fractions_vs_property w file prop species kwargs in
  (outcome r2 = inr tt ->
   xlabels (trace r2) = if kwargs !! "xlabel" is None then ["step"] else [])
  /\ (outcome r3 = inr tt ->
      xlabels (trace r3) = if kwargs !! "xlabel" is None then [prop] else []).
Proof.
  intros r2 r3. subst r2 r3. split; intros H.
  - apply plot_mass_fractions_returns in H as (y & t & _ & _ & _ & ->).
    rewrite !xlabels_app.
    rewrite (xlabels_no_xlabel (trace (fetch_latex_names _ _ _))).
    2:{ eapply Forall_impl; [apply fetch_latex_names_events|]. by intros ? ->. }
    rewrite (xlabels_no_xlabel (trace (for_in _ _))).
    2:{ eapply Forall_impl; [apply species_loop_events|]. by intros []. }
    rewrite (xlabels_no_xlabel (trace (default_ylabel _ _ _))).
    2:{ eapply Forall_impl; [apply default_ylabel_events|]. by intros []. }
    by destruct (kwargs !! "xlabel").
  - apply plot_mass_fractions_vs_property_returns in H
      as (x & y & t & _ & _ & _ & ->).
    rewrite !xlabels_app.
    rewrite (xlabels_no_xlabel (trace (fetch_latex_names _ _ _))).
    2:{ eapply Forall_impl; [apply fetch_latex_names_events|]. by intros ? ->. }
    rewrite (xlabels_no_xlabel (trace (for_in _ _))).
    2:{ eapply Forall_impl; [apply species_loop_events|]. by intros []. }
    rewrite (xlabels_no_xlabel (trace (default_ylabel _ _ _))).
    2:{ eapply Forall_impl; [apply default_ylabel_events|]. by intros []. }
    by destruct (bool_decide (length species ≠ 1)), (kwargs !! "xlabel").
Qed.

Lemma default_xlabel_witness :
  xlabels (trace (plot_mass_fractions Demo.world "a.xml" ["c12"] ∅)) = ["step"]
  /\ xlabels (trace (plot_mass_fractions_vs_property
                       Demo.world "a.xml" "time" ["c12"]
                       {[ "xlabel" := PyStr "time (s)" ]})) = [].
Proof.
  split.
  - refine (proj1 (default_xlabel Demo.world "a.xml" "time" ["c12"] ∅) _).
    by vm_compute.
  - refine (eq_trans (proj2 (default_xlabel
                               Demo.world "a.xml" "time" ["c12"]
                               {[ "xlabel" := PyStr "time (s)" ]}) _) _);
      by vm_compute.
Defined.

(** ** An empty table of latex names *)

(** X11: the code decides between latex and raw names by the size of the
    table it got, not by the flag: when latex names are on and the
    resolver returns an empty table, a plot that returned labelled every
    series with the raw name of its species. *)
Theorem empty_latex_table_gives_raw_names w file prop species kwargs :
  use_latex_names kwargs = true ->
  get_latex_names w species = inr ∅ ->
  let r2 := plot_mass_fractions w file species kwargs in
  let r3 := plot_mass_fractions_vs_property w file prop species kwargs in
  (outcome r2 = inr tt -> plot_labels (trace r2) = Some <$> species)
  /\ (outcome r3 = inr tt -> plot_labels (trace r3) = Some <$> species).
Proof.
  intros Hon Hd r2 r3. subst r2 r3.
  assert (Ht : forall t,
            outcome (fetch_latex_names w species kwargs) = inr t ->
            label_of t <$> species = Some <$> species).
  { intros t. rewrite (fetch_latex_names_on _ _ _ _ Hon Hd). intros [= <-].
    unfold label_of. rewrite map_size_empty. by rewrite bool_decide_false by lia. }
  split; intros H.
  - apply plot_mass_fractions_plot_labels in H as (t & Hfetch & ->).
    by apply Ht.
  - apply plot_mass_fractions_vs_property_plot_labels in H as (t & Hfetch & ->).
    by apply Ht.
Qed.

Lemma empty_latex_table_gives_raw_names_witness :
  plot_labels (trace (plot_mass_fractions Demo.blank "a.xml" ["c12"; "o16"]
                        {[ "use_latex_names" := PyStr "yes" ]}))
  = [Some "c12"; Some "o16"].
Proof.
  refine (proj1 (empty_latex_table_gives_raw_names
                   Demo.blank "a.xml" "time" ["c12"; "o16"]
                   {[ "use_latex_names" := PyStr "yes" ]} _ _) _);
    by vm_compute.
Defined.

(** ** When the chart is shown *)

Lemma shown_bind {A} (m : M A) (f : A -> M unit) :
  Forall (fun e => match e with Show => False | _ => True end) (trace m) ->
  (forall a, Show ∈ trace (f a) -> outcome (f a) = inr tt) ->
  Show ∈ trace (m ≫= f) -> outcome (m ≫= f) = inr tt.
Proof.
  intros Hm Hf. rewrite trace_bind, outcome_bind, elem_of_app.
  intros [Hin|Hin].
  - exfalso. eapply (not_elem_of_Forall _ _ Show Hm); [|exact Hin]. by intros [].
  - destruct (outcome m) as [e|a]; [by apply elem_of_nil in Hin|].
    by apply Hf.
Qed.

Lemma returned_bind {A} (m : M A) (f : A -> M unit) :
  (forall a, outcome (f a) = inr tt -> Show ∈ trace (f a)) ->
  outcome (m ≫= f) = inr tt -> Show ∈ trace (m ≫= f).
Proof.
  intros Hf H. apply bind_returns in H as (a & _ & H & ->).
  apply elem_of_app. right. by apply Hf.
Qed.

(** The side condition of [shown_bind], for the pieces of the six
    operations. *)
Ltac no_show :=
  unfold in_files_body, species_body, series_in_file, plot_in_file,
    species_label, fetch_latex_names, default_ylabel, in_files_ylabel,
    scale, scale_at;
  trace_events.

Ltac shown_only_if_returned :=
  repeat (apply shown_bind; [no_show | intros ?]);
  try (intros _; reflexivity).

Ltac returned_only_if_shown :=
  repeat (apply returned_bind; intros ?);
  try (intros _; apply list_elem_of_here).

(** X12: every operation calls [plt.show] last and only on the path on
    which nothing failed: the chart is shown exactly when the call
    returns normally (for the overlay: and the legend labels passed the
    check).  No failure leaves a chart shown. *)
Theorem show_exactly_when_returned
    w files file prop prop2 species species_list nucleon zone_xpath
    legend_labels kwargs :
  let shown_iff_returned (r : M unit) :=
    Show ∈ trace r <-> outcome r = inr tt in
  (Show ∈ trace (plot_mass_fraction_vs_property_in_files
                   w files prop species legend_labels kwargs)
   <-> outcome (plot_mass_fraction_vs_property_in_files
                  w files prop species legend_labels kwargs) = inr tt
       /\ labels_accepted files legend_labels)
  /\ shown_iff_returned (plot_mass_fractions w file species_list kwargs)
  /\ shown_iff_returned
       (plot_mass_fractions_vs_property w file prop species_list kwargs)
  /\ shown_iff_returned (plot_property w file prop kwargs)
  /\ shown_iff_returned (plot_property_vs_property w file prop prop2 kwargs)
  /\ shown_iff_returned
       (plot_zone_abundances_vs_nucleon_number w file nucleon zone_xpath kwargs).
Proof.
  intros shown_iff_returned. subst shown_iff_returned. cbv beta.
  split; [|repeat split].
  - destruct (truthy legend_labels) eqn:Ht.
    + destruct (decide (length (default [] legend_labels) = length files))
        as [Hlen|Hlen].
      * assert (Hacc : labels_accepted files legend_labels) by (by intros _).
        unfold plot_mass_fraction_vs_property_in_files.
        rewrite (labels_accepted_check _ _ Hacc). split.
        -- intros H. split; [|done]. revert H. shown_only_if_returned.
        -- intros [H _]. revert H. returned_only_if_shown.
      * rewrite in_files_rejected by done. cbn [trace outcome fst snd]. split.
        -- intros Hin.
           repeat (apply elem_of_cons in Hin as [Hin|Hin]; [done|]).
           by apply elem_of_nil in Hin.
        -- intros [_ Hacc]. by destruct Hlen; apply Hacc.
    + assert (Hacc : labels_accepted files legend_labels)
        by (unfold labels_accepted; by rewrite Ht).
      unfold plot_mass_fraction_vs_property_in_files.
      rewrite (labels_accepted_check _ _ Hacc). split.
      * intros H. split; [|done]. revert H. shown_only_if_returned.
      * intros [H _]. revert H. returned_only_if_shown.
  - unfold plot_mass_fractions. shown_only_if_returned.
  - unfold plot_mass_fractions. returned_only_if_shown.
  - unfold plot_mass_fractions_vs_property. shown_only_if_returned.
  - unfold plot_mass_fractions_vs_property. returned_only_if_shown.
  - unfold plot_property. shown_only_if_returned.
  - unfold plot_property. returned_only_if_shown.
  - unfold plot_property_vs_property. shown_only_if_returned.
  - unfold plot_property_vs_property. returned_only_if_shown.
  - unfold plot_zone_abundances_vs_nucleon_number. shown_only_if_returned.
  - unfold plot_zone_abundances_vs_nucleon_number. returned_only_if_shown.
Qed.

(** ** Failures of the plots of properties *)

(** X13: [plot_property] can only fail while it fetches and scales: a
    call that raised has asked the reader once and has not touched
    matplotlib, not even through [apply_class_methods].
    [plot_property_vs_property] can fail there too, and in one more place:
    after [apply_class_methods], [plt.plot] raises [ValueError] when the
    two series have different lengths.  Nothing is shown then. *)
Theorem property_plots_fail_before_plotting w file prop prop2 kwargs e :
  (outcome (plot_property w file prop kwargs) = inl e ->
   trace (plot_property w file prop kwargs)
   = [SetPlotParams Mpl kwargs; GetProperties file [prop]])
  /\ (outcome (plot_property_vs_property w file prop prop2 kwargs) = inl e ->
      trace (plot_property_vs_property w file prop prop2 kwargs)
      = [SetPlotParams Mpl kwargs; GetProperties file [prop; prop2]]
      \/ (e = ValueError
          /\ exists x y,
               length x ≠ length y
               /\ trace (plot_property_vs_property w file prop prop2 kwargs)
                  = [SetPlotParams Mpl kwargs;
                     GetProperties file [prop; prop2];
                     ApplyClassMethods kwargs; Plot (Some x) y None])).
Proof.
  split.
  - unfold plot_property, getitem. rewrite bind_emit.
    cbn [outcome trace fst snd].
    destruct (get_properties_in_zones_as_floats w file [prop]) as [e'|d];
      [done|].
    rewrite bind_call_inr. cbn [outcome trace fst snd].
    destruct (d !! prop) as [x|]; [|done].
    rewrite bind_lift_inr, scale_cases.
    by destruct (factor w kwargs "xfactor").
  - unfold plot_property_vs_property, getitem. rewrite bind_emit.
    cbn [outcome trace fst snd].
    destruct (get_properties_in_zones_as_floats w file [prop; prop2])
      as [e'|d]; [by left|].
    rewrite bind_call_inr. cbn [outcome trace fst snd].
    destruct (d !! prop) as [x|] eqn:Hx; [|by left].
    rewrite bind_lift_inr, scale_at_cases.
    destruct (factor w kwargs "xfactor") as [e'|fx]; [by left|].
    rewrite bind_lift_inr.
    destruct (alter (scaled fx) prop d !! prop2) as [y|] eqn:Hy; [|by left].
    rewrite bind_lift_inr, scale_at_cases.
    destruct (factor w kwargs "yfactor") as [e'|fy]; [by left|].
    rewrite bind_lift_inr, bind_emit. cbn [outcome trace fst snd].
    destruct (lookup_alter_is_Some (scaled fy)
                (alter (scaled fx) prop d) prop2 prop) as [_ [x' Hx']].
    { rewrite lookup_alter_eq, Hx. by eexists. }
    destruct (lookup_alter_is_Some (scaled fy)
                (alter (scaled fx) prop d) prop2 prop2) as [_ [y' Hy']];
      [by eexists|].
    rewrite Hx', Hy', !bind_lift_inr.
    destruct (same_length (Some x') y') eqn:Hlen.
    + by rewrite (plt_plot_ok _ _ _ Hlen).
    + rewrite (plt_plot_raises _ _ _ Hlen). cbn [outcome trace fst snd mbind M_bind].
      intros [= <-]. right. split; [done|]. exists x', y'. split; [|done].
      intros Heq. apply same_length_Some in Heq. congruence.
Qed.

Lemma property_plots_fail_before_plotting_witness :
  trace (plot_property Demo.world "a.xml" "rho" ∅)
    = [SetPlotParams Mpl ∅; GetProperties "a.xml" ["rho"]]
  /\ trace (plot_property_vs_property Demo.world "a.xml" "time" "t9"
              {[ "yfactor" := PyNone ]})
     = [SetPlotParams Mpl {[ "yfactor" := PyNone ]};
        GetProperties "a.xml" ["time"; "t9"]]
  /\ exists x y,
       length x ≠ length y
       /\ trace (plot_property_vs_property Demo.ragged "a.xml" "time" "t9" ∅)
          = [SetPlotParams Mpl ∅; GetProperties "a.xml" ["time"; "t9"];
             ApplyClassMethods ∅; Plot (Some x) y None].
Proof.
  split; [|split].
  - refine (proj1 (property_plots_fail_before_plotting
                     Demo.world "a.xml" "rho" "t9" ∅ (KeyError "rho")) _).
    by vm_compute.
  - destruct (proj2 (property_plots_fail_before_plotting
                       Demo.world "a.xml" "time" "t9"
                       {[ "yfactor" := PyNone ]} TypeError))
      as [H|[H _]]; [by vm_compute|exact H|discriminate H].
  - destruct (proj2 (property_plots_fail_before_plotting
                       Demo.ragged "a.xml" "time" "t9" ∅ ValueError))
      as [H|[_ H]]; [by vm_compute| |exact H].
    exfalso. revert H. by vm_compute.
Defined.

(** One property on both axes, [xfactor] 2 and [yfactor] 4: both series
    are the property divided by 8. *)
Lemma property_vs_property_same_name_witness :
  plotted (trace (plot_property_vs_property Demo.world "a.xml" "time" "time"
                    {[ "xfactor" := PyInt 2; "yfactor" := PyInt 4 ]}))
  = [(Some [0.125%float; 0.25%float], [0.125%float; 0.25%float], None)].
Proof.
  rewrite (property_vs_property_same_name
             Demo.world "a.xml" "time"
             {[ "xfactor" := PyInt 2; "yfactor" := PyInt 4 ]}
             (Demo.props "a.xml") [1%float; 2%float]
             (Some 2%float) (Some 4%float));
    by vm_compute.
Defined.

(** X15: [plot_property] plots the property against the zone index: the
    one series it hands to [plt.plot] has no abscissa and no label, and is
    the property divided by [xfactor].  A [yfactor] in [kwargs] changes
    nothing of what is plotted. *)
Theorem plot_property_plots_scaled_property w file prop kwargs d x fx :
  get_properties_in_zones_as_floats w file [prop] = inr d ->
  d !! prop = Some x ->
  factor w kwargs "xfactor" = inr fx ->
  plot_property w file prop kwargs
  = ([SetPlotParams Mpl kwargs; GetProperties file [prop];
      ApplyClassMethods kwargs; Plot None (scaled fx x) None; Show], inr tt)
  /\ forall v,
       plotted (trace (plot_property w file prop (<["yfactor" := v]> kwargs)))
       = [(None, scaled fx x, None)].
Proof.
  intros Hd Hx Hfx.
  assert (Hrun : forall kw, factor w kw "xfactor" = inr fx ->
            plot_property w file prop kw
            = ([SetPlotParams Mpl kw; GetProperties file [prop];
                ApplyClassMethods kw; Plot None (scaled fx x) None; Show],
               inr tt)).
  { intros kw Hkw. unfold plot_property, getitem.
    rewrite bind_emit, Hd, bind_call_inr, Hx, bind_lift_inr.
    by rewrite (scale_factor _ _ _ _ _ Hkw), bind_nil_inr. }
  split; [by apply Hrun|]. intros v. rewrite Hrun; [done|].
  revert Hfx. unfold factor. by rewrite lookup_insert_ne.
Qed.

Lemma plot_property_plots_scaled_property_witness :
  plotted (trace (plot_property Demo.world "a.xml" "t9"
                    (<["yfactor" := PyInt 4]> {[ "xfactor" := PyInt 2 ]})))
  = [(None, [2%float; 4%float], None)].
Proof.
  refine (eq_trans (proj2 (plot_property_plots_scaled_property
                             Demo.world "a.xml" "t9" {[ "xfactor" := PyInt 2 ]}
                             (Demo.props "a.xml") [4%float; 8%float]
                             (Some 2%float) _ _ _) (PyInt 4)) _);
    by vm_compute.
Defined.

(** ** Failures of the plot of abundances *)

(** X16: [plot_zone_abundances_vs_nucleon_number] never calls
    [set_plot_params].  When the reader raises, nothing else has been
    called; when the reader returns no sequence at all, the call raises
    [IndexError] after [apply_class_methods] has run, and plots
    nothing. *)
Theorem zone_abundances_failures w file nucleon zone_xpath kwargs :
  let r := plot_zone_abundances_vs_nucleon_number
             w file nucleon zone_xpath kwargs in
  Forall (fun ev => forall m kw, ev ≠ SetPlotParams m kw) (trace r)
  /\ (forall e,
        get_abundances_vs_nucleon_number_in_zones w file nucleon zone_xpath
          = inl e ->
        r = ([GetAbundances file nucleon zone_xpath], inl e))
  /\ (get_abundances_vs_nucleon_number_in_zones w file nucleon zone_xpath
        = inr [] ->
      r = ([GetAbundances file nucleon zone_xpath; ApplyClassMethods kwargs],
           inl IndexError)).
Proof.
  intros r. subst r. unfold plot_zone_abundances_vs_nucleon_number.
  split; [|split].
  - eapply Forall_impl
      with (P := fun ev => match ev with SetPlotParams _ _ => False | _ => True end).
    + trace_events.
    + by intros [].
  - by intros e ->.
  - by intros ->.
Qed.

Lemma zone_abundances_failures_witness :
  plot_zone_abundances_vs_nucleon_number Demo.nameless "a.xml" "z" None ∅
  = ([GetAbundances "a.xml" "z" None; ApplyClassMethods ∅], inl IndexError).
Proof.
  refine (proj2 (proj2 (zone_abundances_failures
                          Demo.nameless "a.xml" "z" None ∅)) _).
  reflexivity.
Defined.

(** ** Operations without a legend *)

(** X17: [plot_mass_fractions] labels every series it plots and yet never
    calls [plt.legend], however many species it is given; neither do
    [plot_property], [plot_property_vs_property] and
    [plot_zone_abundances_vs_nucleon_number]. *)
Theorem no_legend_outside_two_operations
    w file prop prop2 species nucleon zone_xpath kwargs :
  let no_legend (r : M unit) := Legend ∉ trace r in
  no_legend (plot_mass_fractions w file species kwargs)
  /\ no_legend (plot_property w file prop kwargs)
  /\ no_legend (plot_property_vs_property w file prop prop2 kwargs)
  /\ no_legend (plot_zone_abundances_vs_nucleon_number
                  w file nucleon zone_xpath kwargs).
Proof.
  intros no_legend. subst no_legend. cbv beta.
  assert (Hmatch : forall t,
            Forall (fun e => match e with Legend => False | _ => True end) t ->
            Legend ∉ t).
  { intros t Ht. by eapply not_elem_of_Forall; [exact Ht|intros []]. }
  repeat split; apply Hmatch.
  - unfold plot_mass_fractions, fetch_latex_names, species_body,
      species_label, default_ylabel.
    trace_events.
  - unfold plot_property, scale. trace_events.
  - unfold plot_property_vs_property, scale_at. trace_events.
  - unfold plot_zone_abundances_vs_nucleon_number. trace_events.
Qed.
